(** * wikidatacon_wdi_demo: the GenBank assembly accession bot (demo.ipynb)

    A shallow embedding of the notebook's code cells:
    - cell 6: the [PROPS] and [ITEMS] tables;
    - cell 8: loading and pre-processing of prokaryotes.txt;
    - cell 18: [create_reference];
    - cells 20, 25, 29: the three versions of [run_one];
    - cell 24: [tax_qid_map];
    - cells 16, 22, 26, 30: logging set-up and the batch loops.

    The notebook drives the third-party client wikidataintegrator.  Its
    calls are kept as the nodes of a program tree ([Py]), so that the
    notebook's own control flow can be studied for every behaviour of the
    client, and are interpreted against a [Library]. *)

From stdpp Require Import base option list gmap sets strings pretty.
From Stdlib Require Import ZArith Lia Ascii.

Local Open Scope Z_scope.

(** ** Python built-ins used by the notebook *)

Module Builtins.

(** [str(n)] on an integer: decimal digits, a leading minus sign when
    negative. *)
Definition str (n : Z) : string := pretty n.
Global Arguments str : simpl never.

(** [fmt.format(arg)] for a template with one replacement field: the
    first [{}] is replaced by [arg]. *)
Fixpoint format (fmt arg : string) : string :=
  match fmt with
  | EmptyString => EmptyString
  | String "{"%char (String "}"%char rest) => arg +:+ rest
  | String c rest => String c (format rest arg)
  end.

(** [time.struct_time], the fields [strftime] reads. *)
Record struct_time := {
  tm_year : Z; tm_mon : Z; tm_mday : Z;
  tm_hour : Z; tm_min : Z; tm_sec : Z
}.

(** Two decimal digits, zero padded (the conversions %m %d %H %M %S). *)
Definition digit (n : Z) : ascii := ascii_of_nat (48 + Z.to_nat (n `mod` 10)).
Definition two_digits (n : Z) : string :=
  String (digit (n `div` 10)) (String (digit n) EmptyString).

(** [time.strftime(fmt, t)]: the conversions %Y %m %d %H %M %S and %%;
    every other character is copied. *)
Fixpoint strftime (fmt : string) (t : struct_time) : string :=
  match fmt with
  | EmptyString => EmptyString
  | String "%"%char (String c rest) =>
      (if decide (c = "Y"%char) then str (tm_year t)
       else if decide (c = "m"%char) then two_digits (tm_mon t)
       else if decide (c = "d"%char) then two_digits (tm_mday t)
       else if decide (c = "H"%char) then two_digits (tm_hour t)
       else if decide (c = "M"%char) then two_digits (tm_min t)
       else if decide (c = "S"%char) then two_digits (tm_sec t)
       else if decide (c = "%"%char) then String "%"%char EmptyString
       else String "%"%char (String c EmptyString)) +:+ strftime rest t
  | String c rest => String c (strftime rest t)
  end.

End Builtins.
Export Builtins.

(** ** Cell 6: property and item tables *)

Definition PROPS : gmap string string :=
  list_to_map [("NCBI Taxonomy ID", "P685");
               ("GenBank Assembly accession", "P4333");
               ("stated in", "P248");
               ("retrieved", "P813");
               ("reference URL", "P854")].

Definition ITEMS : gmap string string :=
  list_to_map [("GenBank", "Q901755")].

(** ** Cell 8: load and pre-process data *)

Module Loader.

(** A row of prokaryotes.txt, with the three columns the cell reads. *)
Record Row := {
  Status : string;
  TaxID : Z;
  Assembly_Accession : string
}.

(** [df.query("Status == 'Complete Genome'")] *)
Definition query_complete (df : list Row) : list Row :=
  filter (λ r, Status r = "Complete Genome") df.

(** [df.groupby("TaxID").agg({'Assembly Accession': lambda x: list(x)})
       .to_dict()['Assembly Accession']]:
    for every TaxID the list of the accessions of its rows, in row order,
    one entry per row. *)
Definition groupby_TaxID (df : list Row) : gmap Z (list string) :=
  foldr (λ r m,
           <[TaxID r := Assembly_Accession r :: default [] (m !! TaxID r)]> m)
        ∅ df.

(** [{k: v[0] for k, v in d.items() if len(v) == 1}] *)
Definition single_accession (d : gmap Z (list string)) : gmap Z string :=
  omap (λ v, if decide (length v = 1%nat) then head v else None) d.

Definition load (df : list Row) : gmap Z string :=
  single_accession (groupby_TaxID (query_complete df)).

(** The accessions of the admitted rows of key [k], one per row. *)
Definition accessions (df : list Row) (k : Z) : list string :=
  Assembly_Accession <$> filter (λ r, TaxID r = k) (query_complete df).

(** The spec's wording: the set of distinct values observed for [k] among
    the admitted rows. *)
Definition distinct_values (df : list Row) (k : Z) : gset string :=
  list_to_set (accessions df k).

End Loader.

(** ** The client's data types, as far as the notebook builds them *)

Module wdi_core.

(** Statements built with [is_reference=True]: the members of a reference. *)
Inductive RefStatement :=
| WDItemID (value prop_nr : string) (is_reference : bool)
| WDTime (time prop_nr : string) (is_reference : bool)
| WDUrl (value prop_nr : string) (is_reference : bool).

(** [WDExternalID(value, prop_nr, references=...)]; [references] is empty
    when the keyword is left out. *)
Record WDExternalID := {
  value : string;
  prop_nr : string;
  references : list (list RefStatement)
}.

Global Instance RefStatement_eq_dec : EqDecision RefStatement.
Proof. solve_decision. Defined.
Global Instance WDExternalID_eq_dec : EqDecision WDExternalID.
Proof. solve_decision. Defined.

(** Exceptions: the class the notebook names, and any other class by name. *)
Inductive Exception :=
| ManualInterventionReqException (message : string)
| OtherException (class_name message : string).

(** [str(e)] and [type(e)] *)
Definition str_exc (e : Exception) : string :=
  match e with
  | ManualInterventionReqException m => m
  | OtherException _ m => m
  end.
Definition type_exc (e : Exception) : string :=
  match e with
  | ManualInterventionReqException _ => "ManualInterventionReqException"
  | OtherException c _ => c
  end.

Inductive Result (A : Type) :=
| Ok (a : A)
| Err (e : Exception).
Global Arguments Ok {A} a.
Global Arguments Err {A} e.

(** [ref_handlers.update_retrieved_if_new] with its [days] keyword bound. *)
Inductive RefHandler :=
| update_retrieved_if_new (days : Z).

(** What the engine decides it has to write; the three plans of the
    spec's reconciliation engine. *)
Inductive WritePlan := Create | NoOp | UpdateReference.

Global Instance WritePlan_eq_dec : EqDecision WritePlan.
Proof. solve_decision. Defined.

(** The keyword arguments of [WDItemEngine(...)] that the notebook passes.
    A keyword left out has the value given by [kw.defaults]. *)
Module kw.
Record t := {
  data : list WDExternalID;
  wd_item_id : string;
  domain : option string;
  search_only : bool;
  item_name : string;
  fast_run : bool;
  fast_run_base_filter : option (list (string * string));
  global_ref_mode : string;
  fast_run_use_refs : bool;
  ref_handler : option RefHandler
}.
Definition defaults (data : list WDExternalID) : t :=
  {| data := data; wd_item_id := EmptyString; domain := None;
     search_only := false; item_name := EmptyString; fast_run := false;
     fast_run_base_filter := None; global_ref_mode := "KEEP_GOOD";
     fast_run_use_refs := false; ref_handler := None |}.
End kw.

(** An engine object: the attribute [wd_item_id] the notebook reads, the
    statements it was built from, and the write it has planned. *)
Record WDItem := {
  wd_item_id : string;
  statements : list WDExternalID;
  plan_of : WritePlan
}.

(** [wdi_helpers.format_msg(external_id, external_id_prop, wdid, msg,
    msg_type=None)].  The formatted message is kept as the tuple of its
    arguments; the log of cell 27 prints them separated by semicolons. *)
Record Msg := format_msg {
  external_id : string;
  external_id_prop : string;
  wdid : string;
  msg : string;
  msg_type : option string
}.

(** An entry of the log stream: the header written by [setup_logging]
    (the items of the dict given to [json.dumps]) or a line written by
    [WDItemEngine.log(level, msg)]. *)
Inductive LogEntry :=
| Header (fields : list (string * string))
| Line (level : string) (m : Msg).

End wdi_core.
Export wdi_core.

(** ** Notebook programs

    A cell's code is a tree whose nodes are the calls into the client
    and the clock.  Only the [WDItemEngine] constructor hands an
    exception back to the notebook (cell 20 catches one); [try_write]
    "captures errors" (cell 20) and so has a plain continuation. *)

Inductive Py (A : Type) : Type :=
| Ret (a : A)
| Raise (e : Exception)
| Gmtime (k : struct_time → Py A)
| DatetimeNow (k : string → Py A)
| SetupLogging (header : list (string * string)) (k : Py A)
| Log (level : string) (m : Msg) (k : Py A)
| NewEngine (args : kw.t) (k : Result WDItem → Py A)
| TryWrite (item : WDItem) (record_id record_prop edit_summary : string)
           (k : Py A).
Arguments Ret {A} a.
Arguments Raise {A} e.
Arguments Gmtime {A} k.
Arguments DatetimeNow {A} k.
Arguments SetupLogging {A} header k.
Arguments Log {A} level m k.
Arguments NewEngine {A} args k.
Arguments TryWrite {A} item record_id record_prop edit_summary k.

Fixpoint bind {A B} (p : Py A) (f : A → Py B) : Py B :=
  match p with
  | Ret a => f a
  | Raise e => Raise e
  | Gmtime k => Gmtime (λ t, bind (k t) f)
  | DatetimeNow k => DatetimeNow (λ s, bind (k s) f)
  | SetupLogging h k => SetupLogging h (bind k f)
  | Log l m k => Log l m (bind k f)
  | NewEngine a k => NewEngine a (λ r, bind (k r) f)
  | TryWrite i r p s k => TryWrite i r p s (bind k f)
  end.

Global Instance Py_ret : MRet Py := λ A a, Ret a.
Global Instance Py_bind : MBind Py := λ A B f p, bind p f.

(** [try: p  except ...: h e]; [h] answers [None] for the exceptions the
    [except] clause does not name, which go on propagating. *)
Fixpoint try_except {A} (p : Py A) (h : Exception → option (Py A)) : Py A :=
  match p with
  | Ret a => Ret a
  | Raise e => match h e with Some q => q | None => Raise e end
  | Gmtime k => Gmtime (λ t, try_except (k t) h)
  | DatetimeNow k => DatetimeNow (λ s, try_except (k s) h)
  | SetupLogging hd k => SetupLogging hd (try_except k h)
  | Log l m k => Log l m (try_except k h)
  | NewEngine a k => NewEngine a (λ r, try_except (k r) h)
  | TryWrite i r p s k => TryWrite i r p s (try_except k h)
  end.

(** The calls, as statements of the notebook. *)
Definition gmtime : Py struct_time := Gmtime Ret.
Definition datetime_now : Py string := DatetimeNow Ret.
Definition setup_logging (header : list (string * string)) : Py unit :=
  SetupLogging header (Ret ()).
Definition log (level : string) (m : Msg) : Py unit := Log level m (Ret ()).
Definition WDItemEngine (args : kw.t) : Py WDItem :=
  NewEngine args (λ r, match r with Ok i => Ret i | Err e => Raise e end).
Definition try_write (item : WDItem) (record_id record_prop : string)
    (edit_summary : string) : Py unit :=
  TryWrite item record_id record_prop edit_summary (Ret ()).

(** ** Cell 16: logging set-up *)

Definition setup_logging_cell : Py unit :=
  timestamp ← datetime_now;
  run_id ← datetime_now;
  setup_logging [("name", "genbank assembly"); ("timestamp", timestamp);
                 ("run_id", run_id)].

(** ** Cell 18: create references *)

Definition create_reference (genbank_id : string) : Py (list RefStatement) :=
  let stated_in := WDItemID (ITEMS !!! "GenBank") (PROPS !!! "stated in") true in
  now ← gmtime;
  let retrieved :=
    WDTime (strftime "+%Y-%m-%dT00:00:00Z" now) (PROPS !!! "retrieved") true in
  let url := format "https://www.ncbi.nlm.nih.gov/genome/?term={}" genbank_id in
  let ref_url := WDUrl url (PROPS !!! "reference URL") true in
  mret [stated_in; retrieved; ref_url].

(** ** Cell 20: the meat of the bot *)

Module V1.

Definition run_one (taxid : Z) (genbank_id : string) : Py unit :=
  let ncbi_statement :=
    {| value := str taxid; prop_nr := PROPS !!! "NCBI Taxonomy ID";
       references := [] |} in
  found ← try_except
    (item ← WDItemEngine
       {| kw.data := [ncbi_statement]; kw.wd_item_id := EmptyString;
          kw.domain := Some "organism"; kw.search_only := true;
          kw.item_name := "organism"; kw.fast_run := false;
          kw.fast_run_base_filter := None; kw.global_ref_mode := "KEEP_GOOD";
          kw.fast_run_use_refs := false; kw.ref_handler := None |};
     mret (Some item))
    (λ e, match e with
          | ManualInterventionReqException _ =>
              Some (let m := format_msg genbank_id
                               (PROPS !!! "GenBank Assembly accession")
                               EmptyString (str_exc e) (Some (type_exc e)) in
                    log "ERROR" m;;
                    mret None)
          | _ => None
          end);
  match found with
  | None => mret ()
  | Some item =>
      if decide (wd_item_id item ≠ EmptyString) then
        reference ← create_reference genbank_id;
        let genbank_statement :=
          {| value := genbank_id;
             prop_nr := PROPS !!! "GenBank Assembly accession";
             references := [reference] |} in
        item ← WDItemEngine
          {| kw.data := [genbank_statement];
             kw.wd_item_id := wd_item_id item;
             kw.domain := None; kw.search_only := false;
             kw.item_name := EmptyString; kw.fast_run := false;
             kw.fast_run_base_filter := None;
             kw.global_ref_mode := "KEEP_GOOD";
             kw.fast_run_use_refs := false; kw.ref_handler := None |};
        try_write item genbank_id (PROPS !!! "GenBank Assembly accession")
          "update GenBank Assembly accession"
      else
        let m := format_msg genbank_id
                   (PROPS !!! "GenBank Assembly accession") EmptyString
                   (format "No organism found with taxid {}" (str taxid))
                   None in
        log "WARNING" m
  end.

End V1.

(** ** Cell 24: the identifier index *)

(** [{k: list(v)[0] for k, v in tax_qid_map.items() if len(v) == 1}],
    applied to the result of [id_mapper(..., return_as_set=True)]. *)
Definition single_item (m : gmap string (gset string)) : gmap string string :=
  omap (λ v, if decide (size v = 1%nat) then head (elements v) else None) m.

(** ** Cell 25: the meat of the bot, fast run mode *)

Module V2.
Section run.
Variable tax_qid_map : gmap string string.

Definition run_one (taxid : Z) (genbank_id : string) : Py unit :=
  let taxid := str taxid in
  match tax_qid_map !! taxid with
  | None =>
      let m := format_msg genbank_id
                 (PROPS !!! "GenBank Assembly accession") EmptyString
                 (format "organism with taxid {} not found or skipped" taxid)
                 None in
      log "WARNING" m;;
      mret ()
  | Some qid =>
      reference ← create_reference genbank_id;
      let genbank_statement :=
        {| value := genbank_id;
           prop_nr := PROPS !!! "GenBank Assembly accession";
           references := [reference] |} in
      item ← WDItemEngine
        {| kw.data := [genbank_statement]; kw.wd_item_id := qid;
           kw.domain := None; kw.search_only := false;
           kw.item_name := EmptyString; kw.fast_run := true;
           kw.fast_run_base_filter :=
             Some [(PROPS !!! "GenBank Assembly accession", EmptyString)];
           kw.global_ref_mode := "KEEP_GOOD";
           kw.fast_run_use_refs := false; kw.ref_handler := None |};
      try_write item genbank_id (PROPS !!! "GenBank Assembly accession")
        "update GenBank Assembly accession"
  end.

End run.
End V2.

(** ** Cell 29: reference check with a 180 day window *)

Module V3.
Section run.
Variable tax_qid_map : gmap string string.

Definition update_retrieved_if_new : RefHandler :=
  wdi_core.update_retrieved_if_new 180.

Definition run_one (taxid : Z) (genbank_id : string) : Py unit :=
  let taxid := str taxid in
  match tax_qid_map !! taxid with
  | None =>
      let m := format_msg genbank_id
                 (PROPS !!! "GenBank Assembly accession") EmptyString
                 (format "organism with taxid {} not found or skipped" taxid)
                 None in
      log "WARNING" m;;
      mret ()
  | Some qid =>
      reference ← create_reference genbank_id;
      let genbank_statement :=
        {| value := genbank_id;
           prop_nr := PROPS !!! "GenBank Assembly accession";
           references := [reference] |} in
      item ← WDItemEngine
        {| kw.data := [genbank_statement]; kw.wd_item_id := qid;
           kw.domain := None; kw.search_only := false;
           kw.item_name := EmptyString; kw.fast_run := true;
           kw.fast_run_base_filter :=
             Some [(PROPS !!! "GenBank Assembly accession", EmptyString)];
           kw.global_ref_mode := "CUSTOM";
           kw.fast_run_use_refs := true;
           kw.ref_handler := Some update_retrieved_if_new |};
      try_write item genbank_id (PROPS !!! "GenBank Assembly accession")
        "update GenBank Assembly accession"
  end.

End run.
End V3.

(** ** Cells 26 and 30: the batch loop

    [for taxid, genbank_id in d.items(): run_one(taxid, genbank_id)].
    (In cell 22 the call is commented out and the body is [pass].) *)
Fixpoint batch (run_one : Z → string → Py unit) (items : list (Z * string))
    : Py unit :=
  match items with
  | [] => mret ()
  | (taxid, genbank_id) :: rest =>
      run_one taxid genbank_id;;
      batch run_one rest
  end.

(** ** Running a program against a client

    A [Library] gives the client's behaviour on a world [W] of its own:
    the remote store, the log stream, the clock.  Reading
    [datetime.now()] may move the world on, so that two readings can
    differ. *)

Record Library (W : Type) := {
  lib_gmtime : W → struct_time;
  lib_datetime_now : W → string * W;
  lib_setup_logging : list (string * string) → W → W;
  lib_log : string → Msg → W → W;
  lib_engine : kw.t → W → Result WDItem * W;
  lib_try_write : WDItem → string → string → string → W → W
}.
Arguments lib_gmtime {W} _ _.
Arguments lib_datetime_now {W} _ _.
Arguments lib_setup_logging {W} _ _ _.
Arguments lib_log {W} _ _ _ _.
Arguments lib_engine {W} _ _ _.
Arguments lib_try_write {W} _ _ _ _ _ _.

(** The calls a run makes, in order. *)
Inductive Event :=
| EvGmtime
| EvDatetimeNow
| EvSetupLogging (header : list (string * string))
| EvLog (level : string) (m : Msg)
| EvEngine (args : kw.t)
| EvTryWrite (item : WDItem) (record_id record_prop edit_summary : string).

(** The calls that reach the remote store. *)
Definition is_remote (e : Event) : bool :=
  match e with
  | EvEngine _ | EvTryWrite _ _ _ _ => true
  | _ => false
  end.

Record Run (A W : Type) := mkRun {
  result : Result A;
  world : W;
  calls : list Event
}.
Arguments mkRun {A W} _ _ _.
Arguments result {A W} _.
Arguments world {A W} _.
Arguments calls {A W} _.

Definition after {A W} (e : Event) (r : Run A W) : Run A W :=
  mkRun (result r) (world r) (e :: calls r).

Fixpoint exec {W A} (L : Library W) (p : Py A) (w : W) : Run A W :=
  match p with
  | Ret a => mkRun (Ok a) w []
  | Raise e => mkRun (Err e) w []
  | Gmtime k => after EvGmtime (exec L (k (lib_gmtime L w)) w)
  | DatetimeNow k =>
      let '(now, w') := lib_datetime_now L w in
      after EvDatetimeNow (exec L (k now) w')
  | SetupLogging h k =>
      after (EvSetupLogging h) (exec L k (lib_setup_logging L h w))
  | Log l m k => after (EvLog l m) (exec L k (lib_log L l m w))
  | NewEngine a k =>
      let '(r, w') := lib_engine L a w in
      after (EvEngine a) (exec L (k r) w')
  | TryWrite i r p s k =>
      after (EvTryWrite i r p s) (exec L k (lib_try_write L i r p s w))
  end.

(** ** Cell 12: core properties *)

(** [wdi_property_store.wd_properties['P4333'] = {'core_id': True}], on top
    of the client's own table. *)
Definition wd_properties (client_table : gmap string bool) : gmap string bool :=
  <["P4333" := true]> client_table.

(** ** The client and the remote store, after the spec

    wikidataintegrator is not part of the notebook.  The definitions of
    this module follow the spec's description of the collaborators
    (data model, component contracts, external interfaces and error
    taxonomy); they give the [Library] against which whole runs are
    studied. *)

Module SpecModel.

(** *** Dates of "retrieved" statements *)

(** Modelled from the spec: the value of a decimal digit, for reading
    the "retrieved: date" of a reference; the client's date parser is
    missing. *)
Definition digit_value (c : ascii) : option Z :=
  let k := Z.of_nat (nat_of_ascii c) in
  if decide (48 ≤ k ≤ 57) then Some (k - 48) else None.

(** Modelled from the spec: reads exactly [n] decimal digits of a
    "retrieved" time string; the client's date parser is missing. *)
Fixpoint read_digits (n : nat) (acc : Z) (s : string) : option (Z * string) :=
  match n with
  | O => Some (acc, s)
  | S n' =>
      match s with
      | EmptyString => None
      | String c rest =>
          match digit_value c with
          | Some d => read_digits n' (10 * acc + d) rest
          | None => None
          end
      end
  end.

(** Modelled from the spec: reads the separator [c] of a "retrieved"
    time string; the client's date parser is missing. *)
Definition read_char (c : ascii) (s : string) : option string :=
  match s with
  | String c' rest => if decide (c = c') then Some rest else None
  | EmptyString => None
  end.

(** Modelled from the spec: the "retrieved: date" of a reference, read
    back from the time string +YYYY-MM-DDThh:mm:ssZ that cell 18 writes;
    the client's parser is missing. *)
Definition parse_date (s : string) : option (Z * Z * Z) :=
  s ← read_char "+" s;
  '(y, s) ← read_digits 4 0 s;
  s ← read_char "-" s;
  '(m, s) ← read_digits 2 0 s;
  s ← read_char "-" s;
  '(d, s) ← read_digits 2 0 s;
  s ← read_char "T" s;
  '(_, s) ← read_digits 2 0 s;
  s ← read_char ":" s;
  '(_, s) ← read_digits 2 0 s;
  s ← read_char ":" s;
  '(_, s) ← read_digits 2 0 s;
  s ← read_char "Z" s;
  if decide (s = EmptyString) then Some (y, m, d) else None.

(** Modelled from the spec: leap years, for counting the days of the
    staleness window; the client's date arithmetic is missing. *)
Definition is_leap (y : Z) : bool :=
  bool_decide (y `mod` 4 = 0 ∧ (y `mod` 100 ≠ 0 ∨ y `mod` 400 = 0)).

(** Modelled from the spec: the days before 1 January of year [y]; the
    client's date arithmetic is missing. *)
Definition days_before_year (y : Z) : Z :=
  let y := y - 1 in y * 365 + y `div` 4 - y `div` 100 + y `div` 400.

(** Modelled from the spec: the days of year [y] before the first of
    month [m]; the client's date arithmetic is missing. *)
Definition days_before_month (y m : Z) : Z :=
  nth (Z.to_nat m) [0; 0; 31; 59; 90; 120; 151; 181; 212; 243; 273; 304; 334] 0
  + (if bool_decide (2 < m) && is_leap y then 1 else 0).

(** Modelled from the spec: days are counted as calendar days (the day
    number of a date in the proleptic Gregorian calendar). *)
Definition day_number (ymd : Z * Z * Z) : Z :=
  let '(y, m, d) := ymd in days_before_year y + days_before_month y m + d.

(** Modelled from the spec: the day of a "retrieved" (P813) member of
    a reference; the client's reference handler is missing. *)
Definition retrieved_day (r : RefStatement) : option Z :=
  match r with
  | WDTime t p _ => if decide (p = "P813") then day_number <$> parse_date t else None
  | _ => None
  end.

(** Modelled from the spec: the days at which the reference groups of
    a statement were retrieved; the client's reference handler is
    missing. *)
Definition retrieved_days (refs : list (list RefStatement)) : list Z :=
  omap retrieved_day (concat refs).

(** Modelled from the spec: the tie-break of the reconciliation
    engine, freshness is judged on the most recently retrieved group;
    the client's reference handler is missing. *)
Definition most_recent (days : list Z) : option Z :=
  match days with
  | [] => None
  | d :: rest => Some (foldr Z.max d rest)
  end.

(** *** The remote store *)

(** Modelled from the spec: the remote store collaborator, as a map from
    entity ids to the statements (property, value, reference groups) the
    entity carries. *)
Abbreviation Store := (gmap string (list WDExternalID)).

(** Modelled from the spec: two statements assert the same fact, a
    (property, value) pair; the client's comparison is missing. *)
Definition same_fact (a b : WDExternalID) : Prop :=
  prop_nr a = prop_nr b ∧ value a = value b.
Global Instance same_fact_dec a b : Decision (same_fact a b).
Proof. unfold same_fact. apply _. Defined.

(** Modelled from the spec: an entity's statements have property [p]
    set to [v]; the remote store is missing. *)
Definition has_value (p v : string) (ss : list WDExternalID) : Prop :=
  Exists (λ s, prop_nr s = p ∧ value s = v) ss.
Global Instance has_value_dec p v ss : Decision (has_value p v ss).
Proof. unfold has_value. apply _. Defined.

(** Modelled from the spec: an entity's statements have property [p]
    set to any value; the remote store is missing. *)
Definition has_prop (p : string) (ss : list WDExternalID) : Prop :=
  Exists (λ s, prop_nr s = p) ss.
Global Instance has_prop_dec p ss : Decision (has_prop p ss).
Proof. unfold has_prop. apply _. Defined.

(** Modelled from the spec: interface (a), query-by-property-value,
    returning zero or more entity ids. *)
Definition query (p v : string) (st : Store) : gset string :=
  dom (filter (λ e : string * list WDExternalID, has_value p v e.2) st).

(** Modelled from the spec: interface (b), the bulk index of a property,
    value to entity set, built in one pass over the store.  It is what
    [id_mapper(p, return_as_set=True)] returns. *)
Definition id_mapper (p : string) (st : Store) : gmap string (gset string) :=
  map_fold
    (λ q ss acc,
       foldr (λ s acc,
                if decide (prop_nr s = p)
                then <[value s := {[q]} ∪ default ∅ (acc !! value s)]> acc
                else acc)
             acc ss)
    ∅ st.

(** Modelled from the spec: the existing-state snapshot, scoped by the
    base filter; an empty value in the filter stands for "any value". *)
Definition in_scope (base_filter : option (list (string * string)))
    (ss : list WDExternalID) : Prop :=
  Forall (λ pv : string * string,
            if decide (pv.2 = EmptyString) then has_prop pv.1 ss
            else has_value pv.1 pv.2 ss)
         (default [] base_filter).
Global Instance in_scope_dec f ss : Decision (in_scope f ss).
Proof. unfold in_scope. apply Forall_dec. intros pv. destruct (decide (pv.2 = EmptyString)); apply _. Defined.

(** Modelled from the spec: the snapshot of the entities in scope that
    the fast-run cache holds; the client's fast-run container is
    missing. *)
Definition snapshot (base_filter : option (list (string * string)))
    (st : Store) : Store :=
  filter (λ e : string * list WDExternalID, in_scope base_filter e.2) st.

(** *** The world of a run *)

(** Modelled from the spec: what a run works on, the remote store, the
    run-scoped existing-state cache, the log stream, the network and the
    clock; the client's and the store's state are missing. *)
Record World := mkWorld {
  store : Store;
  (** the existing-state cache of the running process, once built *)
  existing : option Store;
  (** the log stream *)
  audit : list LogEntry;
  (** what the network does to the coming attempts of remote calls:
      [true] is a transient failure *)
  net : list bool;
  (** the current UTC time *)
  clock : struct_time
}.

(** Modelled from the spec: updates of one field of the world. *)
Definition set_store (st : Store) (w : World) : World :=
  mkWorld st (existing w) (audit w) (net w) (clock w).
Definition set_existing (e : option Store) (w : World) : World :=
  mkWorld (store w) e (audit w) (net w) (clock w).
Definition set_net (n : list bool) (w : World) : World :=
  mkWorld (store w) (existing w) (audit w) n (clock w).
Definition append_log (e : LogEntry) (w : World) : World :=
  mkWorld (store w) (existing w) (audit w ++ [e]) (net w) (clock w).

(** Modelled from the spec: the day at which a reconciliation is
    evaluated, the day number of the clock's date. *)
Definition today (w : World) : Z :=
  day_number (tm_year (clock w), tm_mon (clock w), tm_mday (clock w)).

Section client.

(** The configuration surface: the retry attempt cap and the properties
    marked unique. *)
Variable retry_cap : nat.
Variable unique : gmap string bool.

(** Modelled from the spec: a remote call is attempted at most
    [retry_cap] times; the answer is whether an attempt got through, and
    the network schedule that is left. *)
Fixpoint reach (n : nat) (schedule : list bool) : bool * list bool :=
  match n with
  | O => (false, schedule)
  | S n' =>
      match schedule with
      | [] => (true, [])
      | false :: rest => (true, rest)
      | true :: rest => reach n' rest
      end
  end.

(** Modelled from the spec: the per-record strategy of the identity
    resolver, with its three outcomes besides success. *)
Inductive Resolution :=
| Found (entity_id : string)
| NotFound
| Ambiguous (candidates : list string)
| Transient.

Definition resolve (p local_key : string) (w : World) : Resolution * World :=
  let '(answered, rest) := reach retry_cap (net w) in
  let w := set_net rest w in
  if answered then
    (match elements (query p local_key (store w)) with
     | [] => NotFound
     | [q] => Found q
     | qs => Ambiguous qs
     end, w)
  else (Transient, w).

(** Modelled from the spec: [plan(entity_id, fact, existingState?)] of
    the reconciliation engine.  [freshness] is the staleness window in
    days when reference-freshness checking is enabled; a reference is
    stale when its age reaches the window. *)
Definition plan (freshness : option Z) (today : Z) (entity_id : string)
    (fact : WDExternalID) (existingState : option Store) : WritePlan :=
  match existingState with
  | None => Create
  | Some state =>
      match List.find (λ s, bool_decide (same_fact s fact))
                      (default [] (state !! entity_id)) with
      | None => Create
      | Some s =>
          match freshness with
          | None => NoOp
          | Some days =>
              match most_recent (retrieved_days (references s)) with
              | Some d =>
                  if decide (days ≤ today - d) then UpdateReference else NoOp
              | None => NoOp
              end
          end
      end
  end.

(** Modelled from the spec: the plan of an item built from several
    statements is the heaviest of their plans; the client's engine is
    missing. *)
Definition join (a b : WritePlan) : WritePlan :=
  match a, b with
  | Create, _ | _, Create => Create
  | UpdateReference, _ | _, UpdateReference => UpdateReference
  | NoOp, NoOp => NoOp
  end.

(** Modelled from the spec: reference-freshness checking is opted into
    by [fast_run_use_refs] together with a reference handler, which
    carries the window; the client's engine is missing. *)
Definition freshness_of (a : kw.t) : option Z :=
  if kw.fast_run_use_refs a then
    match kw.ref_handler a with
    | Some (update_retrieved_if_new days) => Some days
    | None => None
    end
  else None.

(** Modelled from the spec: the existing state is built lazily on first
    need and reused for the rest of the run. *)
Definition ensure_existing (base_filter : option (list (string * string)))
    (w : World) : World :=
  match existing w with
  | Some _ => w
  | None => set_existing (Some (snapshot base_filter (store w))) w
  end.

(** Modelled from the spec: [WDItemEngine(...)], whose code is missing.
    With [search_only] it is the per-record lookup by the first
    statement of [data], an ambiguous or failed lookup being raised as
    an exception (cell 20 catches the first); otherwise it plans for the
    given entity, in fast-run mode against the existing state. *)
Definition engine (a : kw.t) (w : World) : Result WDItem * World :=
  if kw.search_only a then
    match kw.data a with
    | [] => (Ok {| wd_item_id := EmptyString; statements := [];
                   plan_of := NoOp |}, w)
    | s :: _ =>
        let '(r, w) := resolve (prop_nr s) (value s) w in
        match r with
        | Found q =>
            (Ok {| wd_item_id := q; statements := kw.data a;
                   plan_of := NoOp |}, w)
        | NotFound =>
            (Ok {| wd_item_id := EmptyString; statements := kw.data a;
                   plan_of := NoOp |}, w)
        | Ambiguous qs =>
            (Err (ManualInterventionReqException
                    ("More than one item has the value " +:+ value s)), w)
        | Transient =>
            (Err (OtherException "TransientError"
                    "lookup failed after all retries"), w)
        end
    end
  else
    let w := if kw.fast_run a
             then ensure_existing (kw.fast_run_base_filter a) w else w in
    let state := if kw.fast_run a then existing w else None in
    let p := foldr (λ s acc,
                      join (plan (freshness_of a) (today w)
                                 (kw.wd_item_id a) s state) acc)
                   NoOp (kw.data a) in
    (Ok {| wd_item_id := kw.wd_item_id a; statements := kw.data a;
           plan_of := p |}, w).

(** Modelled from the spec: the tagged outcome of a write. *)
Inductive WriteOutcome :=
| Written (entity_id : string)
| Skipped (reason : string)
| Warning (reason : string)
| Error (detail : string).

(** Modelled from the spec: server-side uniqueness enforcement; writing
    [s] to [q] conflicts when [s] is of a property marked unique and
    another entity carries the same value. *)
Definition conflict (q : string) (st : Store) (s : WDExternalID) : Prop :=
  unique !! prop_nr s = Some true ∧ ¬ query (prop_nr s) (value s) st ⊆ {[q]}.
Global Instance conflict_dec q st s : Decision (conflict q st s).
Proof. unfold conflict. apply _. Defined.

(** Modelled from the spec: interface (d).  Create overwrites the
    statements of the written properties; UpdateReference replaces the
    matching statement, so that the new references fully replace the old
    ones. *)
Definition apply_write (pl : WritePlan) (q : string)
    (data : list WDExternalID) (st : Store) : Store :=
  let old := default [] (st !! q) in
  match pl with
  | NoOp => st
  | Create =>
      <[q := data ++ filter (λ s, prop_nr s ∉ prop_nr <$> data) old]> st
  | UpdateReference =>
      <[q := (λ s, default s
                     (List.find (λ n, bool_decide (same_fact n s)) data))
             <$> old]> st
  end.

(** Modelled from the spec: [execute(entity_id, plan)] of the write
    executor. *)
Definition execute (item : WDItem) (w : World) : WriteOutcome * World :=
  match plan_of item with
  | NoOp => (Skipped "up to date", w)
  | pl =>
      let '(answered, rest) := reach retry_cap (net w) in
      let w := set_net rest w in
      if answered then
        if decide (Exists (conflict (wd_item_id item) (store w))
                          (statements item))
        then (Error "conflict", w)
        else (Written (wd_item_id item),
              set_store (apply_write pl (wd_item_id item) (statements item)
                                     (store w)) w)
      else (Error "write failed after all retries", w)
  end.

(** Modelled from the spec: the severity under which an outcome is
    logged; the client's logging is missing. *)
Definition severity (o : WriteOutcome) : string :=
  match o with
  | Written _ | Skipped _ => "INFO"
  | Warning _ => "WARNING"
  | Error _ => "ERROR"
  end.

(** Modelled from the spec: the message of an outcome; the client's
    logging is missing. *)
Definition message (o : WriteOutcome) : string :=
  match o with
  | Written _ => "written"
  | Skipped r => r
  | Warning r => r
  | Error d => d
  end.

(** Modelled from the spec: [record(outcome)] of the audit log, one
    appended line carrying record id, property, severity, message and
    the resolved entity. *)
Definition record (record_id record_prop entity_id : string)
    (o : WriteOutcome) (w : World) : World :=
  append_log
    (Line (severity o)
          (format_msg record_id record_prop entity_id (message o) None)) w.

(** Modelled from the spec: [wdi_helpers.try_write], whose code is
    missing; it executes the planned write, captures every failure as
    an outcome and records the outcome. *)
Definition try_write (item : WDItem) (record_id record_prop : string)
    (edit_summary : string) (w : World) : World :=
  let '(o, w) := execute item w in
  record record_id record_prop (wd_item_id item) o w.

(** Modelled from the spec: the client as a whole.  The clock is the
    world's; [datetime.now()] is rendered to the second; the header and
    the notebook's own log lines are appended to the log stream. *)
Definition client : Library World := {|
  lib_gmtime := clock;
  lib_datetime_now := λ w, (strftime "%Y-%m-%d %H:%M:%S" (clock w), w);
  lib_setup_logging := λ h w, append_log (Header h) w;
  lib_log := λ l m w, append_log (Line l m) w;
  lib_engine := engine;
  lib_try_write := try_write
|}.

End client.

(** The index of cell 24 over a store: the filter of the cell applied
    to the bulk index of P685. *)
Definition tax_qid_map (st : Store) : gmap string string :=
  single_item (id_mapper (PROPS !!! "NCBI Taxonomy ID") st).

End SpecModel.

(** ** What a run shows

    Read-outs of the calls of a run, and the arguments and messages the
    cells build, spelled out. *)

(** The entities the engine was asked for in a run. *)
Definition engine_targets (evs : list Event) : list string :=
  omap (λ e, match e with
             | EvEngine a => Some (kw.wd_item_id a)
             | _ => None
             end) evs.

(** The entities handed to [try_write] in a run. *)
Definition write_targets (evs : list Event) : list string :=
  omap (λ e, match e with
             | EvTryWrite i _ _ _ => Some (wd_item_id i)
             | _ => None
             end) evs.

Definition not_found_msg (taxid : Z) (genbank_id : string) : Msg :=
  format_msg genbank_id "P4333" EmptyString
    ("organism with taxid " +:+ str taxid +:+ " not found or skipped") None.

(** The statement the cells build for accession [g] with the reference
    made at time [now]. *)
Definition accession_statement (g : string) (now : struct_time)
    : WDExternalID :=
  {| value := g; prop_nr := "P4333";
     references :=
       [[WDItemID "Q901755" "P248" true;
         WDTime (strftime "+%Y-%m-%dT00:00:00Z" now) "P813" true;
         WDUrl ("https://www.ncbi.nlm.nih.gov/genome/?term=" +:+ g)
               "P854" true]] |}.

(** The keyword arguments cell 25 passes for entity [qid], accession [g]
    and the reference made at time [now]. *)
Definition V2_args (qid g : string) (now : struct_time) : kw.t :=
  {| kw.data :=
       [accession_statement g now];
     kw.wd_item_id := qid; kw.domain := None; kw.search_only := false;
     kw.item_name := EmptyString; kw.fast_run := true;
     kw.fast_run_base_filter := Some [("P4333", EmptyString)];
     kw.global_ref_mode := "KEEP_GOOD"; kw.fast_run_use_refs := false;
     kw.ref_handler := None |}.

(** The keyword arguments of the two engine calls of cell 20. *)
Definition V1_search_args (taxid : Z) : kw.t :=
  {| kw.data := [{| value := str taxid; prop_nr := "P685"; references := [] |}];
     kw.wd_item_id := EmptyString; kw.domain := Some "organism";
     kw.search_only := true; kw.item_name := "organism"; kw.fast_run := false;
     kw.fast_run_base_filter := None; kw.global_ref_mode := "KEEP_GOOD";
     kw.fast_run_use_refs := false; kw.ref_handler := None |}.

Definition V1_write_args (qid g : string) (now : struct_time) : kw.t :=
  {| kw.data :=
       [accession_statement g now];
     kw.wd_item_id := qid; kw.domain := None; kw.search_only := false;
     kw.item_name := EmptyString; kw.fast_run := false;
     kw.fast_run_base_filter := None; kw.global_ref_mode := "KEEP_GOOD";
     kw.fast_run_use_refs := false; kw.ref_handler := None |}.

Definition no_organism_msg (taxid : Z) (genbank_id : string) : Msg :=
  format_msg genbank_id "P4333" EmptyString
    ("No organism found with taxid " +:+ str taxid) None.

Definition ambiguous_msg (genbank_id message : string) : Msg :=
  format_msg genbank_id "P4333" EmptyString message
    (Some "ManualInterventionReqException").

(** The keyword arguments cell 29 passes. *)
Definition V3_args (qid g : string) (now : struct_time) : kw.t :=
  {| kw.data :=
       [accession_statement g now];
     kw.wd_item_id := qid; kw.domain := None; kw.search_only := false;
     kw.item_name := EmptyString; kw.fast_run := true;
     kw.fast_run_base_filter := Some [("P4333", EmptyString)];
     kw.global_ref_mode := "CUSTOM"; kw.fast_run_use_refs := true;
     kw.ref_handler := Some (update_retrieved_if_new 180) |}.

(** The plans of the items handed to [try_write] in a run. *)
Definition planned (evs : list Event) : list WritePlan :=
  omap (λ e, match e with
             | EvTryWrite i _ _ _ => Some (plan_of i)
             | _ => None
             end) evs.

(** A log line that describes the record [rec] under the index
    [tax_qid_map]: the accession as record id, the property P4333, a
    severity, a message, and the resolved entity if there is one. *)
Definition describes (tax_qid_map : gmap string string) (rec : Z * string)
    (l : LogEntry) : Prop :=
  ∃ level message,
    l = Line level
          (format_msg rec.2 "P4333"
             (default EmptyString (tax_qid_map !! str rec.1)) message None).

(** ** The notebook, top to bottom

    Cell 16, then the loops of cells 22 (whose body is [pass]), 26 and
    30, over the records [items] of [d] and the index of cell 24. *)
Definition notebook (tax_qid_map : gmap string string)
    (items : list (Z * string)) : Py unit :=
  setup_logging_cell;;
  batch (λ _ _, mret ()) items;;
  batch (V2.run_one tax_qid_map) items;;
  batch (V3.run_one tax_qid_map) items.

(** Four decimal digits. *)
Definition four_digits (n : Z) : string :=
  String (digit (n `div` 1000)) (String (digit (n `div` 100))
    (String (digit (n `div` 10)) (String (digit n) EmptyString))).

(** A calendar date whose year has four digits. *)
Definition valid_date (t : struct_time) : Prop :=
  1000 ≤ tm_year t ≤ 9999 ∧ 1 ≤ tm_mon t ≤ 12 ∧ 1 ≤ tm_mday t ≤ 31.

Definition date_of (t : struct_time) : Z * Z * Z :=
  (tm_year t, tm_mon t, tm_mday t).

(** The base filter of cells 25 and 29. *)
Definition base_filter : option (list (string * string)) :=
  Some [("P4333", EmptyString)].

(** ** Reading a run of the bulk loop *)

(** The entities the records of a batch resolve to under an index. *)
Definition targets (tax_qid_map : gmap string string)
    (items : list (Z * string)) : list string :=
  omap (λ rec : Z * string, tax_qid_map !! str rec.1) items.

(** The store (or an existing-state snapshot) shows entity [q] with
    accession [g]. *)
Definition carries (st : gmap string (list WDExternalID)) (q g : string)
    : Prop :=
  SpecModel.has_value "P4333" g (default [] (st !! q)).
Global Instance carries_dec st q g : Decision (carries st q g).
Proof. unfold carries. apply _. Defined.

(** The lines [try_write] leaves for a write that went through and for
    a write that was not needed. *)
Definition written_line (g q : string) : LogEntry :=
  Line "INFO" (format_msg g "P4333" q "written" None).
Definition skipped_line (g q : string) : LogEntry :=
  Line "INFO" (format_msg g "P4333" q "up to date" None).

Definition is_written (l : LogEntry) : Prop := ∃ g q, l = written_line g q.
Definition is_skipped (l : LogEntry) : Prop := ∃ g q, l = skipped_line g q.
Definition is_error (l : LogEntry) : Prop := ∃ m, l = Line "ERROR" m.

(** The lines a run appended to the log of the world it started from. *)
Definition new_lines {A} (w : SpecModel.World) (r : Run A SpecModel.World)
    : list LogEntry :=
  drop (length (SpecModel.audit w)) (SpecModel.audit (world r)).

(** The existing state a run works with, seen from a world: the cache if
    it is built, and otherwise the snapshot that would be taken. *)
Definition working_state (c : gmap string (list WDExternalID))
    (w : SpecModel.World) : Prop :=
  SpecModel.existing w = Some c
  ∨ (SpecModel.existing w = None ∧ c = SpecModel.snapshot base_filter (SpecModel.store w)).


(** As far as the records still to come are concerned, what the cache
    carries the store carries. *)
Definition cache_agrees (tax_qid_map : gmap string string)
    (w : SpecModel.World) (items : list (Z * string)) : Prop :=
  ∀ c, SpecModel.existing w = Some c →
       ∀ q g, q ∈ targets tax_qid_map items →
              carries c q g → carries (SpecModel.store w) q g.

(** ** Reading the calls of the loops *)

(** An engine call of the bulk loops for a record of the batch: not a
    lookup, for the entity the index gives the record, with one
    statement, the record's accession under P4333.  A write attempt of
    the bulk loops: for the accession of a record of the batch, under
    P4333.  Any other call passes. *)
Definition serves_a_record (tax_qid_map : gmap string string)
    (items : list (Z * string)) (e : Event) : Prop :=
  match e with
  | EvEngine a =>
      kw.search_only a = false ∧ kw.fast_run a = true
      ∧ ∃ rec, rec ∈ items
               ∧ tax_qid_map !! str rec.1 = Some (kw.wd_item_id a)
               ∧ value <$> kw.data a = [rec.2]
               ∧ prop_nr <$> kw.data a = ["P4333"]
  | EvTryWrite _ record_id record_prop _ =>
      record_prop = "P4333" ∧ ∃ rec, rec ∈ items ∧ record_id = rec.2
  | _ => True
  end.

(** The reference-check settings of an engine call. *)
Definition ref_settings (e : Event)
    : option (string * bool * option RefHandler) :=
  match e with
  | EvEngine a =>
      Some (kw.global_ref_mode a, kw.fast_run_use_refs a, kw.ref_handler a)
  | _ => None
  end.

(** ** The outcome of a record, read from the calls

    A record's outcome is the one call that leaves a line in the log: a
    log call of the notebook, or the call of [try_write], which logs on
    the notebook's behalf.  A log call carries its own severity and
    message; for a [try_write] call the entity is the one the engine was
    last asked for. *)
Record Outcome := {
  o_record_id : string;
  o_prop : string;
  o_entity : option string;
  o_line : option (string * string)
}.

Fixpoint outcomes (asked : option string) (evs : list Event) : list Outcome :=
  match evs with
  | [] => []
  | EvEngine a :: rest => outcomes (Some (kw.wd_item_id a)) rest
  | EvLog level m :: rest =>
      {| o_record_id := external_id m; o_prop := external_id_prop m;
         o_entity := if decide (wdid m = EmptyString) then None
                     else Some (wdid m);
         o_line := Some (level, msg m) |}
      :: outcomes None rest
  | EvTryWrite _ record_id record_prop _ :: rest =>
      {| o_record_id := record_id; o_prop := record_prop;
         o_entity := asked; o_line := None |}
      :: outcomes None rest
  | _ :: rest => outcomes asked rest
  end.

(** The record id and the property an outcome names. *)
Definition names (o : Outcome) : string * string :=
  (o_record_id o, o_prop o).

(** What a record of the bulk loops leaves when its [run_one] returns:
    without an index entry the WARNING line of the notebook, with one a
    write attempt on the entity of the index. *)
Definition bulk_outcome (tax_qid_map : gmap string string)
    (rec : Z * string) : Outcome :=
  match tax_qid_map !! str rec.1 with
  | None =>
      {| o_record_id := rec.2; o_prop := "P4333"; o_entity := None;
         o_line := Some ("WARNING",
                         "organism with taxid " +:+ str rec.1
                         +:+ " not found or skipped") |}
  | Some qid =>
      {| o_record_id := rec.2; o_prop := "P4333"; o_entity := Some qid;
         o_line := None |}
  end.

(** An exception no cell catches when the engine call [a] raises it:
    every one but the ManualInterventionReqException of a lookup. *)
Definition uncaught (a : kw.t) (e : Exception) : Prop :=
  ¬ (kw.search_only a = true ∧ ∃ s, e = ManualInterventionReqException s).

(** A run that ended with the exception [e]: its last call is an engine
    call that raised [e], which no cell catches, and the run ends in the
    world that call left. *)
Definition ended_by_engine {W A} (L : Library W) (r : Run A W)
    (e : Exception) : Prop :=
  ∃ a w0, last (calls r) = Some (EvEngine a)
          ∧ lib_engine L a w0 = (Err e, world r)
          ∧ uncaught a e.

(** The engine calls of cell 20 that end [run_one] with the exception
    [e], for the record [rec] in the world [w]: the lookup raises [e],
    which is not a ManualInterventionReqException; or the lookup finds
    an item and the second constructor call, made in the world the
    lookup left, raises [e]. *)
Definition V1_raises {W} (L : Library W) (rec : Z * string) (w : W)
    (e : Exception) : Prop :=
  match lib_engine L (V1_search_args rec.1) w with
  | (Err e', _) => e' = e ∧ ∀ s, e ≠ ManualInterventionReqException s
  | (Ok item, w1) =>
      wd_item_id item ≠ EmptyString
      ∧ (lib_engine L (V1_write_args (wd_item_id item) rec.2 (lib_gmtime L w1))
                    w1).1 = Err e
  end.

(** The engine call of cells 25 and 29 that ends [run_one] with the
    exception [e]: the record has an index entry and the constructor
    call for its entity, with the arguments [args] of the cell, raises
    [e]. *)
Definition bulk_raises {W} (L : Library W)
    (args : string → string → struct_time → kw.t)
    (tax_qid_map : gmap string string) (rec : Z * string) (w : W)
    (e : Exception) : Prop :=
  ∃ qid, tax_qid_map !! str rec.1 = Some qid
         ∧ (lib_engine L (args qid rec.2 (lib_gmtime L w)) w).1 = Err e.

(** One record at the record boundary.  When an engine call raises as
    [raises] has it, [run_one] ends with that exception.  Otherwise
    [run_one] returns and leaves exactly one outcome, as [P] has it; it
    ends with an exception only when an engine call raised it, and then
    there is no outcome. *)
Definition at_record_boundary {W} (L : Library W)
    (run_one : Z → string → Py unit)
    (raises : Z * string → W → Exception → Prop)
    (P : Z * string → Outcome → Prop) : Prop :=
  ∀ (rec : Z * string) (w : W),
    let r := exec L (run_one rec.1 rec.2) w in
    (∀ e, raises rec w e → result r = Err e)
    ∧ match result r with
      | Ok _ =>
          ∃ o, P rec o
               ∧ ∀ k, outcomes None (calls r ++ k) = o :: outcomes None k
      | Err e =>
          outcomes None (calls r) = [] ∧ ended_by_engine L r e
          ∧ raises rec w e
      end.

(** A batch at the record boundary.  The outcomes of the run are those
    of its first [n] records, one each and in order, naming the
    accession of the record and P4333.  Either the loop returns, and [n]
    counts every record; or it ends with an exception [e]: then the
    records before record [n] were run and returned, an engine call of
    record [n] raised [e] as [raises] has it, that call is the last of
    the run, and record [n] and the records after it have no outcome.
    Conversely, whenever the records before some record return and an
    engine call of that record raises [e] as [raises] has it, the loop
    ends with [e]. *)
Definition batch_at_record_boundary {W} (L : Library W)
    (run_one : Z → string → Py unit)
    (raises : Z * string → W → Exception → Prop)
    (items : list (Z * string)) (w : W) : Prop :=
  let r := exec L (batch run_one items) w in
  let before (k : nat) := exec L (batch run_one (take k items)) w in
  (∃ n : nat,
     names <$> outcomes None (calls r)
     = (λ rec : Z * string, (rec.2, "P4333")) <$> take n items
     ∧ match result r with
       | Ok _ => n = length items
       | Err e =>
           ended_by_engine L r e
           ∧ result (before n) = Ok ()
           ∧ ∃ rec, items !! n = Some rec ∧ raises rec (world (before n)) e
       end)
  ∧ (∀ (k : nat) (rec : Z * string) (e : Exception),
       items !! k = Some rec →
       result (before k) = Ok () →
       raises rec (world (before k)) e →
       result r = Err e).

Definition is_setup_logging (e : Event) : bool :=
  match e with
  | EvSetupLogging _ => true
  | _ => false
  end.

(** ** Concrete inputs *)

Module Inputs.
Import Loader.

(** Two admitted rows of one taxonomy id carrying the same accession. *)
Definition repeated_rows : list Row :=
  [ {| Status := "Complete Genome"; TaxID := 9;
       Assembly_Accession := "GCA_900128725.1" |};
    {| Status := "Complete Genome"; TaxID := 9;
       Assembly_Accession := "GCA_900128725.1" |} ].

(** The preview of cell 9, as rows, with a row that is not complete and
    a taxonomy id sequenced twice. *)
Definition sample_rows : list Row :=
  [ {| Status := "Complete Genome"; TaxID := 1366;
       Assembly_Accession := "GCA_002310475.1" |};
    {| Status := "Contig"; TaxID := 9;
       Assembly_Accession := "GCA_000000000.1" |};
    {| Status := "Complete Genome"; TaxID := 9;
       Assembly_Accession := "GCA_900128725.1" |};
    {| Status := "Complete Genome"; TaxID := 562;
       Assembly_Accession := "GCA_000005845.2" |};
    {| Status := "Complete Genome"; TaxID := 562;
       Assembly_Accession := "GCA_000008865.2" |} ].

Import SpecModel.

Definition taxon (v : string) : WDExternalID :=
  {| value := v; prop_nr := "P685"; references := [] |}.

Definition noon (y m d : Z) : struct_time :=
  {| tm_year := y; tm_mon := m; tm_mday := d;
     tm_hour := 12; tm_min := 0; tm_sec := 0 |}.

(** Two organisms, one taxonomy id each. *)
Definition two_organisms : Store :=
  {[ "Q383453" := [taxon "9"]; "Q25379953" := [taxon "1366"] ]}.

Definition two_records : list (Z * string) :=
  [(9, "GCA_900128725.1"); (1366, "GCA_002310475.1")].

(** A network that fails three attempts in a row. *)
Definition flaky_world : World :=
  mkWorld two_organisms None [] [true; true; true] (noon 2017 10 13).

Definition quiet_world : World :=
  mkWorld two_organisms None [] [] (noon 2017 10 13).

(** The index of [two_organisms]. *)
Definition two_index : gmap string string :=
  {[ "9" := "Q383453"; "1366" := "Q25379953" ]}.

(** The same day, just after midnight and just before the next. *)
Definition early_world : World :=
  mkWorld two_organisms None [] []
          {| tm_year := 2017; tm_mon := 10; tm_mday := 13;
             tm_hour := 0; tm_min := 0; tm_sec := 1 |}.
Definition late_world : World :=
  mkWorld two_organisms None [] []
          {| tm_year := 2017; tm_mon := 10; tm_mday := 13;
             tm_hour := 23; tm_min := 59; tm_sec := 59 |}.

(** Two organisms carrying the same taxonomy id. *)
Definition ambiguous_world : World :=
  mkWorld {[ "Q25419" := [taxon "562"]; "Q3050658" := [taxon "562"] ]}
          None [] [true] (noon 2017 10 13).

End Inputs.

(** An organism whose accession was written on 1 January 2017, looked at
    181 days later. *)
Module Stale.
Import SpecModel.

Definition tax_qid_map : gmap string string := {[ "9" := "Q383453" ]}.

Definition world : World :=
  mkWorld {[ "Q383453" :=
               [accession_statement "GCA_900128725.1" (Inputs.noon 2017 1 1);
                Inputs.taxon "9"] ]}
          None [] [] (Inputs.noon 2017 7 1).

End Stale.

(** One organism that carries two taxonomy ids, each sequenced once. *)
Module TwoTaxa.
Import SpecModel.

Definition organisms : Store :=
  {[ "Q21079489" := [Inputs.taxon "679936"; Inputs.taxon "385025"] ]}.

Definition records : list (Z * string) :=
  [(679936, "GCA_000237975.1"); (385025, "GCA_000299965.1")].

Definition first_world : World :=
  mkWorld organisms None [] [] (Inputs.noon 2017 10 13).

End TwoTaxa.

(** A client whose engine finds no item and never fails, and one whose
    engine always fails with a connection error; both leave the world,
    a log of (level, message) pairs, to the log calls, and read the
    same time at every reading of the clock. *)
Module Clients.

Definition no_item : WDItem :=
  {| wd_item_id := EmptyString; statements := []; plan_of := NoOp |}.

Definition base (engine : kw.t → Result WDItem)
    : Library (list (string * Msg)) :=
  {| lib_gmtime := λ _, Inputs.noon 2017 10 13;
     lib_datetime_now := λ w, ("2017-10-13 13:50:10", w);
     lib_setup_logging := λ _ w, w;
     lib_log := λ l m w, w ++ [(l, m)];
     lib_engine := λ a w, (engine a, w);
     lib_try_write := λ _ _ _ _ w, w |}.

Definition finds_nothing : Library (list (string * Msg)) :=
  base (λ _, Ok no_item).

Definition finds (q : string) : Library (list (string * Msg)) :=
  base (λ a, Ok {| wd_item_id := q; statements := kw.data a;
                   plan_of := Create |}).

Definition offline : Library (list (string * Msg)) :=
  base (λ _, Err (OtherException "ConnectionError" "no route to host")).

(** A client that answers lookups with the entity [q] and fails every
    other engine call. *)
Definition lookup_only (q : string) : Library (list (string * Msg)) :=
  base (λ a, if kw.search_only a
             then Ok {| wd_item_id := q; statements := []; plan_of := NoOp |}
             else Err (OtherException "ConnectionError" "no route to host")).

(** A client that cannot reach the store and whose clock moves on by
    one second at each reading of [datetime.now()]; its world is the
    number of readings so far and the log. *)
Definition ticking : Library (Z * list (string * Msg)) :=
  {| lib_gmtime := λ _, Inputs.noon 2017 10 13;
     lib_datetime_now := λ w,
       (strftime "%Y-%m-%d %H:%M:%S"
          {| tm_year := 2017; tm_mon := 10; tm_mday := 13;
             tm_hour := 13; tm_min := 50; tm_sec := 10 + w.1 |},
        (w.1 + 1, w.2));
     lib_setup_logging := λ _ w, w;
     lib_log := λ l m w, (w.1, w.2 ++ [(l, m)]);
     lib_engine := λ _ w,
       (Err (OtherException "ConnectionError" "no route to host"), w);
     lib_try_write := λ _ _ _ _ w, w |}.

Definition ambiguous : Library (list (string * Msg)) :=
  base (λ _, Err (ManualInterventionReqException "two items")).

End Clients.

(** * Properties *)

Section LoaderFacts.
Import Loader.

Lemma groupby_TaxID_lookup (df : list Row) (k : Z) :
  groupby_TaxID df !! k
  = match Assembly_Accession <$> filter (λ r, TaxID r = k) df with
    | [] => None
    | l => Some l
    end.
Proof.
  induction df as [|r df IH]; simpl.
  - by rewrite lookup_empty.
  - rewrite filter_cons. destruct (decide (TaxID r = k)) as [->|Hne].
    + rewrite lookup_insert_eq, IH, fmap_cons.
      by destruct (Assembly_Accession <$> filter _ df).
    + by rewrite lookup_insert_ne.
Qed.

Lemma load_lookup (df : list Row) (k : Z) (v : string) :
  load df !! k = Some v ↔ accessions df k = [v].
Proof.
  unfold load, single_accession, accessions.
  rewrite lookup_omap, groupby_TaxID_lookup.
  destruct (Assembly_Accession <$> filter _ (query_complete df))
    as [|a [|b l]]; simpl; split; intros H; try done; by simplify_eq.
Qed.

End LoaderFacts.


Section LoaderClaims.
Import Loader.

Lemma load_lookup_None (df : list Row) (k : Z) :
  load df !! k = None ↔ length (accessions df k) ≠ 1%nat.
Proof.
  destruct (load df !! k) as [v|] eqn:H.
  - apply load_lookup in H. rewrite H. by split.
  - split; [|done]. intros _ Hlen.
    destruct (accessions df k) as [|v [|? ?]] eqn:Hacc; simplify_eq/=.
    apply load_lookup in Hacc. congruence.
Qed.

Example load_sample :
  map_to_list (load Inputs.sample_rows)
  = [(9, "GCA_900128725.1"); (1366, "GCA_002310475.1")].
Proof. vm_compute. reflexivity. Qed.

(** C1, as stated, fails: with two admitted rows of taxonomy id 9 that
    carry the same accession, the set of distinct values of 9 has
    cardinality 1, yet 9 is not a key of the loader's output. *)
Lemma load_repeated_rows_counterexample :
  size (distinct_values Inputs.repeated_rows 9) = 1%nat
  ∧ 9 ∉ dom (load Inputs.repeated_rows).
Proof.
  split.
  - vm_compute. reflexivity.
  - apply not_elem_of_dom. vm_compute. reflexivity.
Qed.

(** C1, amended.  The loader counts rows, not distinct values: [k] is a
    key of the output if and only if exactly one admitted row (status
    'Complete Genome') has key [k]; the emitted value is the accession
    of that row, which is then the only distinct value of [k]; and every
    key whose set of distinct values has more than one element is absent
    from the output. *)
Theorem load_keeps_keys_of_exactly_one_row (df : list Row) (k : Z) :
  (k ∈ dom (load df) ↔ length (accessions df k) = 1%nat)
  ∧ (∀ v, load df !! k = Some v
          ↔ accessions df k = [v])
  ∧ (∀ v, load df !! k = Some v → distinct_values df k = {[ v ]})
  ∧ (1 < size (distinct_values df k) → k ∉ dom (load df))%nat.
Proof.
  split_and!.
  - rewrite elem_of_dom. split.
    + intros [v Hv%load_lookup]. by rewrite Hv.
    + intros Hlen. destruct (load df !! k) eqn:H; [done|].
      by apply load_lookup_None in H.
  - intros v. apply load_lookup.
  - intros v Hv%load_lookup. unfold distinct_values. rewrite Hv.
    by rewrite list_to_set_cons, list_to_set_nil, (right_id_L ∅ (∪)).
  - intros Hsize. apply not_elem_of_dom, load_lookup_None.
    unfold distinct_values in Hsize.
    destruct (accessions df k) as [|v [|? ?]]; [| |done].
    + rewrite list_to_set_nil, size_empty in Hsize. lia.
    + rewrite list_to_set_cons, list_to_set_nil, (right_id_L ∅ (∪)),
        size_singleton in Hsize. lia.
Qed.

End LoaderClaims.
(** ** The tables and the string templates *)

Lemma PROPS_taxid : PROPS !!! "NCBI Taxonomy ID" = "P685".
Proof. reflexivity. Qed.
Lemma PROPS_accession : PROPS !!! "GenBank Assembly accession" = "P4333".
Proof. reflexivity. Qed.
Lemma PROPS_stated_in : PROPS !!! "stated in" = "P248".
Proof. reflexivity. Qed.
Lemma PROPS_retrieved : PROPS !!! "retrieved" = "P813".
Proof. reflexivity. Qed.
Lemma PROPS_reference_URL : PROPS !!! "reference URL" = "P854".
Proof. reflexivity. Qed.
Lemma ITEMS_GenBank : ITEMS !!! "GenBank" = "Q901755".
Proof. reflexivity. Qed.

Ltac tables :=
  rewrite ?PROPS_taxid, ?PROPS_accession, ?PROPS_stated_in, ?PROPS_retrieved,
    ?PROPS_reference_URL, ?ITEMS_GenBank.

Lemma append_empty_r (s : string) : s +:+ EmptyString = s.
Proof.
  induction s as [|c s IH]; [done|].
  change (String c (s +:+ EmptyString) = String c s). by f_equal.
Qed.

Lemma format_url (g : string) :
  format "https://www.ncbi.nlm.nih.gov/genome/?term={}" g
  = "https://www.ncbi.nlm.nih.gov/genome/?term=" +:+ g.
Proof. cbn [format]. by rewrite append_empty_r. Qed.

Lemma format_not_found (s : string) :
  format "organism with taxid {} not found or skipped" s
  = "organism with taxid " +:+ s +:+ " not found or skipped".
Proof. reflexivity. Qed.

Lemma format_no_organism (s : string) :
  format "No organism found with taxid {}" s
  = "No organism found with taxid " +:+ s.
Proof. cbn [format]. by rewrite append_empty_r. Qed.

Lemma strftime_retrieved (t : struct_time) :
  strftime "+%Y-%m-%dT00:00:00Z" t
  = "+" +:+ str (tm_year t) +:+ "-" +:+ two_digits (tm_mon t) +:+ "-"
    +:+ two_digits (tm_mday t) +:+ "T00:00:00Z".
Proof. reflexivity. Qed.

(** ** Running programs *)

Section Exec.
Context {W : Type} (L : Library W).

Lemma exec_bind {A B} (p : Py A) (f : A → Py B) (w : W) :
  exec L (p ≫= f) w
  = match result (exec L p w) with
    | Ok a =>
        let r := exec L (f a) (world (exec L p w)) in
        mkRun (result r) (world r) (calls (exec L p w) ++ calls r)
    | Err e => mkRun (Err e) (world (exec L p w)) (calls (exec L p w))
    end.
Proof.
  revert w. unfold mbind, Py_bind.
  induction p as [a|e|k IH|k IH|h k IH|l m k IH|a k IH|i r q s k IH];
    intros w; simpl.
  - destruct (exec L (f a) w); reflexivity.
  - reflexivity.
  - rewrite IH. unfold after; simpl.
    destruct (result (exec L (k _) w)); reflexivity.
  - destruct (lib_datetime_now L w) as [now w']. rewrite IH.
    unfold after; simpl.
    destruct (result (exec L (k now) w')); reflexivity.
  - rewrite IH. unfold after; simpl.
    destruct (result (exec L k _)); reflexivity.
  - rewrite IH. unfold after; simpl.
    destruct (result (exec L k _)); reflexivity.
  - destruct (lib_engine L a w) as [r w']. rewrite IH. unfold after; simpl.
    destruct (result (exec L (k r) w')); reflexivity.
  - rewrite IH. unfold after; simpl.
    destruct (result (exec L k _)); reflexivity.
Qed.

Lemma exec_create_reference (g : string) (w : W) :
  exec L (create_reference g) w
  = mkRun (Ok [WDItemID "Q901755" "P248" true;
               WDTime (strftime "+%Y-%m-%dT00:00:00Z" (lib_gmtime L w))
                      "P813" true;
               WDUrl ("https://www.ncbi.nlm.nih.gov/genome/?term=" +:+ g)
                     "P854" true])
          w [EvGmtime].
Proof.
  unfold create_reference. tables.
  by rewrite format_url.
Qed.

End Exec.

(** C10. For every accession string [g], [create_reference g] returns
    exactly three reference statements, in this order: "stated in"
    (P248) pointing to the GenBank item Q901755; "retrieved" (P813) with
    the current UTC date and the time of day fixed to 00:00:00; and
    "reference URL" (P854) with the genome URL followed by [g].  The
    call leaves the world as it was. *)
Theorem create_reference_three_statements
    (W : Type) (L : Library W) (w : W) (g : string) :
  result (exec L (create_reference g) w)
  = Ok [WDItemID "Q901755" "P248" true;
        WDTime ("+" +:+ str (tm_year (lib_gmtime L w)) +:+ "-"
                +:+ two_digits (tm_mon (lib_gmtime L w)) +:+ "-"
                +:+ two_digits (tm_mday (lib_gmtime L w)) +:+ "T00:00:00Z")
               "P813" true;
        WDUrl ("https://www.ncbi.nlm.nih.gov/genome/?term=" +:+ g)
              "P854" true]
  ∧ world (exec L (create_reference g) w) = w.
Proof. rewrite exec_create_reference. by rewrite strftime_retrieved. Qed.

(** ** The bulk-index [run_one] of cell 25 *)


Section BulkRunOne.
Context {W : Type} (L : Library W) (tax_qid_map : gmap string string).

Lemma V2_run_one_not_found (taxid : Z) (g : string) (w : W) :
  tax_qid_map !! str taxid = None →
  exec L (V2.run_one tax_qid_map taxid g) w
  = mkRun (Ok ()) (lib_log L "WARNING" (not_found_msg taxid g) w)
          [EvLog "WARNING" (not_found_msg taxid g)].
Proof.
  intros H. unfold V2.run_one. rewrite H. tables. done.
Qed.


Lemma V2_run_one_found (taxid : Z) (g qid : string) (w : W) :
  tax_qid_map !! str taxid = Some qid →
  exec L (V2.run_one tax_qid_map taxid g) w
  = let a := V2_args qid g (lib_gmtime L w) in
    match lib_engine L a w with
    | (Ok item, w') =>
        mkRun (Ok ())
              (lib_try_write L item g "P4333"
                 "update GenBank Assembly accession" w')
              [EvGmtime; EvEngine a;
               EvTryWrite item g "P4333" "update GenBank Assembly accession"]
    | (Err e, w') => mkRun (Err e) w' [EvGmtime; EvEngine a]
    end.
Proof.
  intros H. unfold V2.run_one. rewrite H.
  rewrite exec_bind, exec_create_reference. tables.
  cbn -[strftime]. unfold V2_args.
  destruct (lib_engine L _ w) as [[item|e] w']; done.
Qed.

End BulkRunOne.

(** C5. In bulk-index mode, for a record whose key has no entry in the
    index, [run_one] logs one WARNING line saying the organism was not
    found, and returns: that log call is the only call of the run, so
    no remote call is made and no write is attempted. *)
Theorem bulk_not_found_logs_warning_without_remote_call
    (W : Type) (L : Library W) (tax_qid_map : gmap string string)
    (taxid : Z) (g : string) (w : W) :
  tax_qid_map !! str taxid = None →
  let r := exec L (V2.run_one tax_qid_map taxid g) w in
  result r = Ok ()
  ∧ calls r = [EvLog "WARNING" (not_found_msg taxid g)]
  ∧ filter (λ e, is_remote e = true) (calls r) = []
  ∧ world r = lib_log L "WARNING" (not_found_msg taxid g) w.
Proof. intros H. simpl. by rewrite V2_run_one_not_found. Qed.

Lemma bulk_not_found_logs_warning_without_remote_call_witness :
  let r := exec (SpecModel.client 3 (wd_properties ∅))
                (V2.run_one Stale.tax_qid_map 679936 "GCA_000237975.1")
                Inputs.quiet_world in
  Stale.tax_qid_map !! str 679936 = None
  ∧ calls r = [EvLog "WARNING" (not_found_msg 679936 "GCA_000237975.1")].
Proof.
  split; [reflexivity|].
  refine (proj1 (proj2 (bulk_not_found_logs_warning_without_remote_call
            _ (SpecModel.client 3 (wd_properties ∅)) Stale.tax_qid_map
            679936 "GCA_000237975.1" Inputs.quiet_world _))).
  reflexivity.
Defined.

(** C9. In bulk-index mode [run_one] looks the taxonomy id up under its
    decimal string [str taxid]: the engine is asked for an entity if and
    only if [str taxid] is a key of the index, and then exactly for the
    entity [tax_qid_map[str taxid]]; the same entity is the only one a
    write is attempted on. *)
Theorem bulk_resolution_by_decimal_string
    (W : Type) (L : Library W) (tax_qid_map : gmap string string)
    (taxid : Z) (g : string) (w : W) :
  let r := exec L (V2.run_one tax_qid_map taxid g) w in
  engine_targets (calls r)
  = match tax_qid_map !! str taxid with
    | Some qid => [qid]
    | None => []
    end
  ∧ (is_Some (tax_qid_map !! str taxid)
     ↔ Exists (λ e, is_remote e = true) (calls r)).
Proof.
  simpl. destruct (tax_qid_map !! str taxid) as [qid|] eqn:H.
  - rewrite (V2_run_one_found L _ _ _ qid) by done. simpl.
    destruct (lib_engine L _ w) as [[item|e] w']; simpl;
      (split; [done|]); split; intros _; eauto; by apply Exists_cons_tl, Exists_cons_hd.
  - rewrite V2_run_one_not_found by done. simpl. split; [done|].
    split; [by intros [? ?]|]. intros Hex. by apply Exists_cons in Hex as [?|Hex%Exists_nil].
Qed.

(** ** The per-record [run_one] of cell 20 *)

Section PerRecordRunOne.
Context {W : Type} (L : Library W).

Lemma V1_run_one_exec (taxid : Z) (g : string) (w : W) :
  exec L (V1.run_one taxid g) w
  = let a := V1_search_args taxid in
    match lib_engine L a w with
    | (Err (ManualInterventionReqException s), w1) =>
        mkRun (Ok ()) (lib_log L "ERROR" (ambiguous_msg g s) w1)
              [EvEngine a; EvLog "ERROR" (ambiguous_msg g s)]
    | (Err e, w1) => mkRun (Err e) w1 [EvEngine a]
    | (Ok item, w1) =>
        if decide (wd_item_id item ≠ EmptyString) then
          let a2 := V1_write_args (wd_item_id item) g (lib_gmtime L w1) in
          match lib_engine L a2 w1 with
          | (Ok item2, w2) =>
              mkRun (Ok ())
                    (lib_try_write L item2 g "P4333"
                       "update GenBank Assembly accession" w2)
                    [EvEngine a; EvGmtime; EvEngine a2;
                     EvTryWrite item2 g "P4333"
                       "update GenBank Assembly accession"]
          | (Err e, w2) => mkRun (Err e) w2 [EvEngine a; EvGmtime; EvEngine a2]
          end
        else
          mkRun (Ok ()) (lib_log L "WARNING" (no_organism_msg taxid g) w1)
                [EvEngine a; EvLog "WARNING" (no_organism_msg taxid g)]
    end.
Proof.
  unfold V1.run_one. tables. fold (V1_search_args taxid).
  cbn -[str create_reference format V1_search_args].
  destruct (lib_engine L (V1_search_args taxid) w) as [[item|e] w1].
  - cbn -[str create_reference format V1_search_args].
    destruct (decide (wd_item_id item ≠ EmptyString)) as [Hne|Heq].
    + unfold after at 1. 
      change (bind ?p ?f) with (p ≫= f).
      rewrite exec_bind, exec_create_reference.
      cbn -[str strftime format V1_search_args]. unfold V1_write_args.
      destruct (lib_engine L _ w1) as [[item2|e] w2]; reflexivity.
    + rewrite format_no_organism. reflexivity.
  - destruct e as [s|c s]; reflexivity.
Qed.

End PerRecordRunOne.

(** ** The remote store of the model: queries and the bulk index *)

Section Resolver.
Import SpecModel.

Lemma elem_of_query (p v : string) (st : Store) (q : string) :
  q ∈ query p v st ↔ ∃ ss, st !! q = Some ss ∧ has_value p v ss.
Proof.
  unfold query. rewrite elem_of_dom. split.
  - intros [ss [H1 H2]%map_lookup_filter_Some]. eauto.
  - intros (ss & H1 & H2). exists ss. by apply map_lookup_filter_Some.
Qed.

Lemma query_insert (p v : string) (st : Store) (q q' : string)
    (ss : list WDExternalID) :
  st !! q = None →
  q' ∈ query p v (<[q := ss]> st)
  ↔ (q' = q ∧ has_value p v ss) ∨ q' ∈ query p v st.
Proof.
  intros Hq. rewrite !elem_of_query. split.
  - intros (ss' & [[-> ->]|[Hne H]]%lookup_insert_Some & Hv); eauto.
  - intros [[-> Hv]|(ss' & H & Hv)].
    + exists ss. by rewrite lookup_insert_eq.
    + exists ss'. split; [|done]. rewrite lookup_insert_ne; [done|]. congruence.
Qed.

(** One entity's statements, added to the index. *)
Lemma index_entity (p q : string) (ss : list WDExternalID)
    (acc : gmap string (gset string)) (v q' : string) :
  q' ∈ default ∅
         (foldr (λ s acc,
                   if decide (prop_nr s = p)
                   then <[value s := {[q]} ∪ default ∅ (acc !! value s)]> acc
                   else acc) acc ss !! v)
  ↔ (q' = q ∧ has_value p v ss) ∨ q' ∈ default ∅ (acc !! v).
Proof.
  unfold has_value. induction ss as [|s ss IH]; simpl.
  - rewrite Exists_nil. naive_solver.
  - rewrite Exists_cons. destruct (decide (prop_nr s = p)) as [Hp|Hp].
    + destruct (decide (value s = v)) as [Hv|Hv].
      * subst v. rewrite lookup_insert_eq. simpl. rewrite elem_of_union, IH.
        rewrite elem_of_singleton. naive_solver.
      * rewrite lookup_insert_ne by done. rewrite IH. naive_solver.
    + rewrite IH. naive_solver.
Qed.

Lemma index_entity_nonempty (p q : string) (ss : list WDExternalID)
    (acc : gmap string (gset string)) :
  (∀ v S, acc !! v = Some S → S ≠ ∅) →
  ∀ v S,
    foldr (λ s acc,
             if decide (prop_nr s = p)
             then <[value s := {[q]} ∪ default ∅ (acc !! value s)]> acc
             else acc) acc ss !! v = Some S → S ≠ ∅.
Proof.
  intros Hacc. induction ss as [|s ss IH]; simpl; [done|].
  destruct (decide (prop_nr s = p)); [|done].
  intros v S [[<- <-]|[_ H]]%lookup_insert_Some; [set_solver|eauto].
Qed.

Lemma id_mapper_elem_of (p : string) (st : Store) (v q : string) :
  q ∈ default ∅ (id_mapper p st !! v) ↔ q ∈ query p v st.
Proof.
  revert v q. unfold id_mapper.
  apply (map_fold_weak_ind
           (λ acc m, ∀ v q, q ∈ default ∅ (acc !! v) ↔ q ∈ query p v m)).
  - intros v q. rewrite lookup_empty, elem_of_query. simpl.
    split; [set_solver|]. intros (ss & H & _). by rewrite lookup_empty in H.
  - intros q ss m acc Hq IH v q'. rewrite index_entity, query_insert by done.
    by rewrite IH.
Qed.

Lemma id_mapper_nonempty (p : string) (st : Store) (v : string)
    (S : gset string) :
  id_mapper p st !! v = Some S → S ≠ ∅.
Proof.
  revert v S. unfold id_mapper.
  apply (map_fold_weak_ind (λ acc (m : Store), ∀ v S, acc !! v = Some S → S ≠ ∅)).
  - intros v S. by rewrite lookup_empty.
  - intros q ss m acc _ IH. by apply index_entity_nonempty.
Qed.

Lemma id_mapper_lookup_Some (p : string) (st : Store) (v : string)
    (S : gset string) :
  id_mapper p st !! v = Some S → S = query p v st.
Proof.
  intros H. apply set_eq. intros q.
  by rewrite <- id_mapper_elem_of, H.
Qed.

Lemma id_mapper_lookup_None (p : string) (st : Store) (v : string) :
  id_mapper p st !! v = None → query p v st = ∅.
Proof.
  intros H. apply set_eq. intros q.
  rewrite <- id_mapper_elem_of, H. done.
Qed.

(** The index of cell 24 keeps [k] exactly when one entity carries it. *)
Lemma tax_qid_map_lookup (st : Store) (k q : string) :
  tax_qid_map st !! k = Some q ↔ elements (query "P685" k st) = [q].
Proof.
  unfold tax_qid_map, single_item. rewrite PROPS_taxid, lookup_omap.
  destruct (id_mapper "P685" st !! k) as [S|] eqn:H; simpl.
  - apply id_mapper_lookup_Some in H as ->.
    unfold size, set_size. simpl.
    destruct (elements (query "P685" k st)) as [|a [|b l]]; simpl;
      try case_decide; naive_solver.
  - apply id_mapper_lookup_None in H as ->. by rewrite elements_empty.
Qed.

End Resolver.

Section PerRecordLookup.
Import SpecModel.
Context (retry_cap : nat).

Lemma engine_search (taxid : Z) (w : World) :
  engine retry_cap (V1_search_args taxid) w
  = let '(r, w1) := resolve retry_cap "P685" (str taxid) w in
    match r with
    | Found q =>
        (Ok {| wd_item_id := q;
               statements := kw.data (V1_search_args taxid);
               plan_of := NoOp |}, w1)
    | NotFound =>
        (Ok {| wd_item_id := EmptyString;
               statements := kw.data (V1_search_args taxid);
               plan_of := NoOp |}, w1)
    | Ambiguous qs =>
        (Err (ManualInterventionReqException
                ("More than one item has the value " +:+ str taxid)), w1)
    | Transient =>
        (Err (OtherException "TransientError"
                "lookup failed after all retries"), w1)
    end.
Proof. reflexivity. Qed.

Lemma resolve_answered (p k : string) (w : World) (rest : list bool) :
  reach retry_cap (net w) = (true, rest) →
  resolve retry_cap p k w
  = (match elements (query p k (store w)) with
     | [] => NotFound
     | [q] => Found q
     | qs => Ambiguous qs
     end, set_net rest w).
Proof. intros H. unfold resolve. by rewrite H. Qed.

Lemma resolve_unanswered (p k : string) (w : World) (rest : list bool) :
  reach retry_cap (net w) = (false, rest) →
  resolve retry_cap p k w = (Transient, set_net rest w).
Proof. intros H. unfold resolve. by rewrite H. Qed.

Lemma per_record_found_in_bulk (w w' : World) (taxid : Z) (item : WDItem) :
  engine retry_cap (V1_search_args taxid) w = (Ok item, w') →
  wd_item_id item ≠ EmptyString →
  tax_qid_map (store w) !! str taxid = Some (wd_item_id item).
Proof.
  rewrite engine_search. intros H Hne. apply tax_qid_map_lookup.
  destruct (reach retry_cap (net w)) as [[|] rest] eqn:Hreach.
  - rewrite (resolve_answered _ _ _ rest) in H by done.
    destruct (elements (query "P685" (str taxid) (store w)))
      as [|a [|b l]]; by simplify_eq/=.
  - by rewrite (resolve_unanswered _ _ _ rest) in H.
Qed.

End PerRecordLookup.

(** C6. For a fixed remote store, whenever the bulk index of cell 24
    has an entity for a taxonomy id and the per-record lookup of cell 20
    (the [search_only] engine) returns an item for the same id, the
    item is that entity: the two strategies agree. *)
Theorem bulk_and_per_record_resolution_agree
    (retry_cap : nat) (w w' : SpecModel.World) (taxid : Z) (qid : string)
    (item : WDItem) :
  SpecModel.tax_qid_map (SpecModel.store w) !! str taxid = Some qid →
  SpecModel.engine retry_cap (V1_search_args taxid) w = (Ok item, w') →
  wd_item_id item = qid.
Proof.
  intros Hbulk%tax_qid_map_lookup. rewrite engine_search.
  destruct (SpecModel.reach retry_cap (SpecModel.net w))
    as [[|] rest] eqn:Hreach.
  - rewrite (resolve_answered _ _ _ _ rest), Hbulk by done.
    intros; by simplify_eq/=.
  - by rewrite (resolve_unanswered _ _ _ _ rest).
Qed.

Lemma bulk_and_per_record_resolution_agree_witness :
  SpecModel.tax_qid_map (SpecModel.store Inputs.quiet_world) !! str 9
  = Some "Q383453"
  ∧ ∃ item w',
      SpecModel.engine 3 (V1_search_args 9) Inputs.quiet_world = (Ok item, w')
      ∧ wd_item_id item = "Q383453".
Proof.
  split; [vm_compute; reflexivity|].
  eexists _, _. split; [vm_compute; reflexivity|].
  eapply (bulk_and_per_record_resolution_agree 3 Inputs.quiet_world _ 9).
  - vm_compute. reflexivity.
  - vm_compute. reflexivity.
Defined.

(** C4. In per-record mode, when the lookup is answered and more than
    one entity carries the taxonomy id, [run_one] ends normally with one
    ERROR line appended to the log, attempts no write and leaves the
    store as it is; the batch loop goes on with the next record. *)
Theorem ambiguous_lookup_logs_error_and_continues
    (retry_cap : nat) (unique : gmap string bool) (w : SpecModel.World)
    (taxid : Z) (g : string) (rest : list bool) :
  SpecModel.reach retry_cap (SpecModel.net w) = (true, rest) →
  (1 < size (SpecModel.query "P685" (str taxid) (SpecModel.store w)))%nat →
  let L := SpecModel.client retry_cap unique in
  let r := exec L (V1.run_one taxid g) w in
  result r = Ok ()
  ∧ (∃ s, SpecModel.audit (world r)
          = SpecModel.audit w ++ [Line "ERROR" (ambiguous_msg g s)])
  ∧ SpecModel.store (world r) = SpecModel.store w
  ∧ write_targets (calls r) = []
  ∧ ∀ items,
      let r' := exec L (batch V1.run_one items) (world r) in
      exec L (batch V1.run_one ((taxid, g) :: items)) w
      = mkRun (result r') (world r') (calls r ++ calls r').
Proof.
  intros Hreach Hsize L r.
  assert (Hr : r = mkRun (Ok ())
                 (SpecModel.append_log
                    (Line "ERROR"
                       (ambiguous_msg g
                          ("More than one item has the value " +:+ str taxid)))
                    (SpecModel.set_net rest w))
                 [EvEngine (V1_search_args taxid);
                  EvLog "ERROR"
                    (ambiguous_msg g
                       ("More than one item has the value " +:+ str taxid))]).
  { unfold r. rewrite V1_run_one_exec. cbn [lib_engine L SpecModel.client].
    rewrite engine_search, (resolve_answered _ _ _ _ rest) by done.
    unfold size, set_size in Hsize. simpl in Hsize.
    destruct (elements (SpecModel.query "P685" (str taxid) (SpecModel.store w)))
      as [|a [|b l]]; simpl in Hsize; [lia|lia|]. reflexivity. }
  split_and!.
  - by rewrite Hr.
  - rewrite Hr. eauto.
  - by rewrite Hr.
  - by rewrite Hr.
  - intros items r'. cbn [batch].
    rewrite exec_bind. fold r. subst r'. rewrite Hr. reflexivity.
Qed.

Lemma ambiguous_lookup_logs_error_and_continues_witness :
  let r := exec (SpecModel.client 3 (wd_properties ∅))
                (V1.run_one 562 "GCA_000005845.2") Inputs.ambiguous_world in
  SpecModel.reach 3 (SpecModel.net Inputs.ambiguous_world) = (true, [])
  ∧ size (SpecModel.query "P685" (str 562)
            (SpecModel.store Inputs.ambiguous_world)) = 2%nat
  ∧ result r = Ok ()
  ∧ write_targets (calls r) = [].
Proof.
  split; [reflexivity|]. split; [vm_compute; reflexivity|].
  pose proof (ambiguous_lookup_logs_error_and_continues 3 (wd_properties ∅)
                Inputs.ambiguous_world 562 "GCA_000005845.2" []) as H.
  cbn zeta in H. destruct H as (H1 & _ & _ & H4 & _).
  - reflexivity.
  - vm_compute. lia.
  - by split.
Defined.

(** ** The reference-checking [run_one] of cell 29 *)

Section RefCheckRunOne.
Context {W : Type} (L : Library W) (tax_qid_map : gmap string string).

Lemma V3_run_one_not_found (taxid : Z) (g : string) (w : W) :
  tax_qid_map !! str taxid = None →
  exec L (V3.run_one tax_qid_map taxid g) w
  = mkRun (Ok ()) (lib_log L "WARNING" (not_found_msg taxid g) w)
          [EvLog "WARNING" (not_found_msg taxid g)].
Proof. intros H. unfold V3.run_one. rewrite H. tables. done. Qed.

Lemma V3_run_one_found (taxid : Z) (g qid : string) (w : W) :
  tax_qid_map !! str taxid = Some qid →
  exec L (V3.run_one tax_qid_map taxid g) w
  = let a := V3_args qid g (lib_gmtime L w) in
    match lib_engine L a w with
    | (Ok item, w') =>
        mkRun (Ok ())
              (lib_try_write L item g "P4333"
                 "update GenBank Assembly accession" w')
              [EvGmtime; EvEngine a;
               EvTryWrite item g "P4333" "update GenBank Assembly accession"]
    | (Err e, w') => mkRun (Err e) w' [EvGmtime; EvEngine a]
    end.
Proof.
  intros H. unfold V3.run_one. rewrite H.
  rewrite exec_bind, exec_create_reference. tables.
  cbn -[strftime]. unfold V3_args, V3.update_retrieved_if_new.
  destruct (lib_engine L _ w) as [[item|e] w']; done.
Qed.

End RefCheckRunOne.

(** ** The batch loop *)

Section Batch.
Context {W : Type} (L : Library W).

Lemma exec_batch_cons (run_one : Z → string → Py unit) (taxid : Z)
    (g : string) (items : list (Z * string)) (w : W) :
  exec L (batch run_one ((taxid, g) :: items)) w
  = match result (exec L (run_one taxid g) w) with
    | Ok _ =>
        let r := exec L (batch run_one items)
                   (world (exec L (run_one taxid g) w)) in
        mkRun (result r) (world r)
              (calls (exec L (run_one taxid g) w) ++ calls r)
    | Err e =>
        mkRun (Err e) (world (exec L (run_one taxid g) w))
              (calls (exec L (run_one taxid g) w))
    end.
Proof. cbn [batch]. by rewrite exec_bind. Qed.

Lemma exec_batch_pass (items : list (Z * string)) (w : W) :
  exec L (batch (λ _ _, mret ()) items) w = mkRun (Ok ()) w [].
Proof.
  induction items as [|[t g] items IH]; [done|].
  rewrite exec_batch_cons. simpl. by rewrite IH.
Qed.

Lemma calls_bind_Forall {A B} (P : Event → Prop) (p : Py A) (f : A → Py B)
    (w : W) :
  Forall P (calls (exec L p w)) →
  (∀ a w', Forall P (calls (exec L (f a) w'))) →
  Forall P (calls (exec L (p ≫= f) w)).
Proof.
  intros Hp Hf. rewrite exec_bind.
  destruct (result (exec L p w)); [|done].
  cbn [calls]. apply Forall_app. by split.
Qed.

Lemma calls_batch_Forall (P : Event → Prop) (run_one : Z → string → Py unit)
    (items : list (Z * string)) :
  (∀ rec w, rec ∈ items → Forall P (calls (exec L (run_one rec.1 rec.2) w))) →
  ∀ w, Forall P (calls (exec L (batch run_one items) w)).
Proof.
  induction items as [|[t g] items IH]; intros Hone w; [constructor|].
  rewrite exec_batch_cons.
  assert ((t, g) ∈ (t, g) :: items) as Hhd by left.
  pose proof (Hone (t, g) w Hhd) as H0. cbn [fst snd] in H0.
  destruct (result (exec L (run_one t g) w)); [|done].
  cbn [calls]. apply Forall_app. split; [done|].
  apply IH. intros rec w' Hin. apply Hone. by right.
Qed.

(** Cell 16, against any client: the clock is read twice, the second
    time in the world the first reading left, and [setup_logging] is
    called with the two readings. *)
Lemma exec_setup_logging_cell (w : W) :
  exec L setup_logging_cell w
  = let now1 := lib_datetime_now L w in
    let now2 := lib_datetime_now L now1.2 in
    let header := [("name", "genbank assembly"); ("timestamp", now1.1);
                   ("run_id", now2.1)] in
    mkRun (Ok ()) (lib_setup_logging L header now2.2)
          [EvDatetimeNow; EvDatetimeNow; EvSetupLogging header].
Proof.
  unfold setup_logging_cell. simpl.
  destruct (lib_datetime_now L w) as [t w1]. simpl.
  destruct (lib_datetime_now L w1) as [i w2]. reflexivity.
Qed.

End Batch.

(** ** Runs against the model client *)

Section ModelRuns.
Import SpecModel.
Context (retry_cap : nat) (unique : gmap string bool).
Let L := client retry_cap unique.

Lemma execute_audit (item : WDItem) (w : World) :
  audit (execute retry_cap unique item w).2 = audit w.
Proof.
  unfold execute.
  destruct (plan_of item); [|done|];
    destruct (reach retry_cap (net w)) as [[|] rest]; simpl;
    try case_decide; done.
Qed.

Lemma try_write_audit (item : WDItem) (rid rp s : string) (w : World) :
  ∃ level message,
    audit (try_write retry_cap unique item rid rp s w)
    = audit w ++ [Line level (format_msg rid rp (wd_item_id item) message None)].
Proof.
  unfold try_write. pose proof (execute_audit item w) as H.
  destruct (execute retry_cap unique item w) as [o w1]. simpl in *.
  rewrite H. eauto.
Qed.

Lemma resolve_audit (p k : string) (w : World) :
  audit (resolve retry_cap p k w).2 = audit w.
Proof.
  unfold resolve. by destruct (reach retry_cap (net w)) as [[|] rest].
Qed.

Lemma ensure_existing_audit f (w : World) :
  audit (ensure_existing f w) = audit w.
Proof. unfold ensure_existing. by destruct (existing w). Qed.

(** Outside [search_only] the engine plans and hands back an item for
    the entity it was given. *)
Lemma engine_plans (a : kw.t) (w : World) :
  kw.search_only a = false →
  ∃ item w1, engine retry_cap a w = (Ok item, w1)
             ∧ wd_item_id item = kw.wd_item_id a
             ∧ audit w1 = audit w.
Proof.
  intros H. unfold engine. rewrite H. eexists _, _. split; [reflexivity|].
  split; [done|]. destruct (kw.fast_run a); [apply ensure_existing_audit|done].
Qed.

Lemma V2_run_one_line (m : gmap string string) (rec : Z * string) (w : World) :
  let r := exec L (V2.run_one m rec.1 rec.2) w in
  result r = Ok ()
  ∧ ∃ l, audit (world r) = audit w ++ [l] ∧ describes m rec l.
Proof.
  destruct rec as [taxid g]. simpl.
  destruct (m !! str taxid) as [qid|] eqn:Hm.
  - rewrite (V2_run_one_found L m taxid g qid) by done.
    cbn zeta. unfold L. cbn [lib_engine lib_gmtime lib_try_write client].
    destruct (engine_plans (V2_args qid g (clock w)) w)
      as (item & w1 & -> & Hid & Ha); [done|]. simpl. split; [done|].
    destruct (try_write_audit item g "P4333"
                "update GenBank Assembly accession" w1) as (lvl & msg & ->).
    eexists. split; [by rewrite Ha|]. exists lvl, msg. simpl.
    by rewrite Hm, Hid.
  - rewrite V2_run_one_not_found by done. simpl. split; [done|].
    eexists. split; [done|]. eexists _, _. simpl. by rewrite Hm.
Qed.

Lemma V3_run_one_line (m : gmap string string) (rec : Z * string) (w : World) :
  let r := exec L (V3.run_one m rec.1 rec.2) w in
  result r = Ok ()
  ∧ ∃ l, audit (world r) = audit w ++ [l] ∧ describes m rec l.
Proof.
  destruct rec as [taxid g]. simpl.
  destruct (m !! str taxid) as [qid|] eqn:Hm.
  - rewrite (V3_run_one_found L m taxid g qid) by done.
    cbn zeta. unfold L. cbn [lib_engine lib_gmtime lib_try_write client].
    destruct (engine_plans (V3_args qid g (clock w)) w)
      as (item & w1 & -> & Hid & Ha); [done|]. simpl. split; [done|].
    destruct (try_write_audit item g "P4333"
                "update GenBank Assembly accession" w1) as (lvl & msg & ->).
    eexists. split; [by rewrite Ha|]. exists lvl, msg. simpl.
    by rewrite Hm, Hid.
  - rewrite V3_run_one_not_found by done. simpl. split; [done|].
    eexists. split; [done|]. eexists _, _. simpl. by rewrite Hm.
Qed.

(** A loop whose [run_one] always returns with one line appended
    returns with one line per record. *)
Lemma batch_lines (run_one : Z → string → Py unit)
    (ok : Z * string → LogEntry → Prop) :
  (∀ rec w, let r := exec L (run_one rec.1 rec.2) w in
            result r = Ok ()
            ∧ ∃ l, audit (world r) = audit w ++ [l] ∧ ok rec l) →
  ∀ items w,
    let r := exec L (batch run_one items) w in
    result r = Ok ()
    ∧ ∃ lines, audit (world r) = audit w ++ lines ∧ Forall2 ok items lines.
Proof.
  intros Hone items. induction items as [|[taxid g] items IH]; intros w.
  - simpl. split; [done|]. exists []. by rewrite app_nil_r.
  - cbn zeta. rewrite exec_batch_cons.
    destruct (Hone (taxid, g) w) as (Hres & l & Hl & Hok). simpl in Hres, Hl.
    rewrite Hres. cbn zeta. simpl.
    destruct (IH (world (exec L (run_one taxid g) w))) as (Hres' & lines & Hlines & Hall).
    split; [done|]. exists (l :: lines). split; [|by constructor].
    rewrite Hlines, Hl. by rewrite <- app_assoc.
Qed.

End ModelRuns.

(** ** The record boundary and the log calls *)

Section Boundary.
Context {W : Type} (L : Library W).

Lemma V1_run_one_boundary :
  at_record_boundary L V1.run_one (V1_raises L)
    (λ rec o, names o = (rec.2, "P4333")).
Proof.
  intros [taxid g] w. unfold V1_raises. cbn [fst snd]. cbn zeta.
  rewrite V1_run_one_exec. cbn zeta.
  destruct (lib_engine L (V1_search_args taxid) w) as [[item|[s|c s]] w1] eqn:E1.
  - destruct (decide (wd_item_id item ≠ EmptyString)) as [Hid|Hid].
    + destruct (lib_engine L _ w1) as [[item2|e] w2] eqn:E2;
        cbn [result world calls fst].
      * split; [by intros e [_ He]|].
        eexists. split; [|intros k; reflexivity]. reflexivity.
      * split; [by intros e' [_ [= ->]]|].
        split; [reflexivity|]. split; [|done].
        eexists _, w1. split; [reflexivity|].
        split; [exact E2|]. intros [H _]. discriminate H.
    + cbn [result world calls]. split; [by intros e [He _]|].
      eexists. split; [|intros k; reflexivity]. reflexivity.
  - cbn [result world calls]. split.
    { intros e [<- He]. by destruct (He s). }
    eexists. split; [|intros k; reflexivity]. reflexivity.
  - cbn [result world calls]. split; [by intros e [<- _]|].
    split; [reflexivity|]. split; [|done].
    eexists _, w. split; [reflexivity|]. split; [exact E1|].
    intros [_ [s' H]]. discriminate H.
Qed.

Lemma V2_run_one_boundary (m : gmap string string) :
  at_record_boundary L (V2.run_one m) (bulk_raises L V2_args m)
    (λ rec o, o = bulk_outcome m rec).
Proof.
  intros [taxid g] w. unfold bulk_raises, bulk_outcome. cbn [fst snd].
  cbn zeta.
  destruct (m !! str taxid) as [qid|] eqn:Hm.
  - rewrite (V2_run_one_found L _ _ _ qid) by done. cbn zeta.
    destruct (lib_engine L _ w) as [[item|e] w1] eqn:E;
      cbn [result world calls].
    + split.
      { intros e (q & [= <-] & He). rewrite E in He. discriminate He. }
      eexists. split; [reflexivity|]. intros k. reflexivity.
    + split.
      { intros e' (q & [= <-] & He). rewrite E in He. by injection He as ->. }
      split; [reflexivity|]. split.
      * eexists _, w. split; [reflexivity|].
        split; [exact E|]. intros [H _]. discriminate H.
      * exists qid. split; [done|]. by rewrite E.
  - rewrite V2_run_one_not_found by done. cbn [result world calls].
    split; [by intros e (q & Hq & _)|].
    eexists. split; [reflexivity|]. intros k. reflexivity.
Qed.

Lemma V3_run_one_boundary (m : gmap string string) :
  at_record_boundary L (V3.run_one m) (bulk_raises L V3_args m)
    (λ rec o, o = bulk_outcome m rec).
Proof.
  intros [taxid g] w. unfold bulk_raises, bulk_outcome. cbn [fst snd].
  cbn zeta.
  destruct (m !! str taxid) as [qid|] eqn:Hm.
  - rewrite (V3_run_one_found L _ _ _ qid) by done. cbn zeta.
    destruct (lib_engine L _ w) as [[item|e] w1] eqn:E;
      cbn [result world calls].
    + split.
      { intros e (q & [= <-] & He). rewrite E in He. discriminate He. }
      eexists. split; [reflexivity|]. intros k. reflexivity.
    + split.
      { intros e' (q & [= <-] & He). rewrite E in He. by injection He as ->. }
      split; [reflexivity|]. split.
      * eexists _, w. split; [reflexivity|].
        split; [exact E|]. intros [H _]. discriminate H.
      * exists qid. split; [done|]. by rewrite E.
  - rewrite V3_run_one_not_found by done. cbn [result world calls].
    split; [by intros e (q & Hq & _)|].
    eexists. split; [reflexivity|]. intros k. reflexivity.
Qed.

(** The loop, record by record: the outcomes of a batch are those of the
    records whose [run_one] returned, and the loop ends with an
    exception exactly at the first record that raises one. *)
Lemma batch_boundary (run_one : Z → string → Py unit)
    (raises : Z * string → W → Exception → Prop)
    (P : Z * string → Outcome → Prop) :
  at_record_boundary L run_one raises P →
  ∀ (items : list (Z * string)) (w : W),
    let r := exec L (batch run_one items) w in
    let before (k : nat) := exec L (batch run_one (take k items)) w in
    (∃ (n : nat) (os : list Outcome),
       Forall2 P (take n items) os
       ∧ outcomes None (calls r) = os
       ∧ match result r with
         | Ok _ =>
             n = length items
             ∧ ∀ k, outcomes None (calls r ++ k) = os ++ outcomes None k
         | Err e =>
             ended_by_engine L r e
             ∧ result (before n) = Ok ()
             ∧ ∃ rec, items !! n = Some rec ∧ raises rec (world (before n)) e
         end)
    ∧ (∀ (k : nat) (rec : Z * string) (e : Exception),
         items !! k = Some rec →
         result (before k) = Ok () →
         raises rec (world (before k)) e →
         result r = Err e).
Proof.
  intros Hone items. induction items as [|[taxid g] items IH]; intros w.
  - cbn zeta. split.
    + exists 0%nat, []. simpl. split; [constructor|]. by split.
    + intros k rec e Hk. by rewrite lookup_nil in Hk.
  - cbn zeta.
    destruct (Hone (taxid, g) w) as [Hconv H1]. cbn [fst snd] in Hconv, H1.
    destruct (IH (world (exec L (run_one taxid g) w))) as [IH1 IH2].
    cbn zeta in IH1, IH2. split.
    + rewrite exec_batch_cons.
      destruct (result (exec L (run_one taxid g) w)) as [[]|e] eqn:Hr1.
      * destruct H1 as (o & Ho & Hk).
        destruct IH1 as (n & os & Hall & Hos & Hres).
        cbn zeta. cbn [result world calls].
        exists (S n), (o :: os). split; [by constructor|].
        split; [by rewrite Hk, Hos|].
        destruct (result (exec L (batch run_one items) _)) as [[]|e].
        -- destruct Hres as [-> Hk']. split; [done|]. intros k.
           by rewrite <- app_assoc, Hk, Hk'.
        -- destruct Hres as ((a & w0 & Hlast & Ha & Hun) & Hbefore & Hrec).
           split_and!.
           ++ exists a, w0. cbn [calls world].
              split; [|done]. by rewrite last_app, Hlast.
           ++ cbn [take]. rewrite exec_batch_cons, Hr1. exact Hbefore.
           ++ cbn [take]. rewrite exec_batch_cons, Hr1. exact Hrec.
      * destruct H1 as (Hnone & Hend & Hraises). cbn [result world calls].
        exists 0%nat, []. split; [constructor|]. split; [done|].
        split; [exact Hend|]. split; [done|]. by exists (taxid, g).
    + intros [|k] rec e Hk Hbefore Hraises.
      * injection Hk as <-. cbn [take batch exec world] in Hraises.
        rewrite exec_batch_cons, (Hconv e Hraises). done.
      * cbn [take] in Hbefore, Hraises. rewrite exec_batch_cons in *.
        destruct (result (exec L (run_one taxid g) w)) as [[]|e'];
          [|discriminate Hbefore].
        cbn zeta in *. cbn [result world] in *.
        by rewrite (IH2 k rec e Hk Hbefore Hraises).
Qed.

Lemma Forall2_fmap_eq {A B C} (f : B → C) (g : A → C) (l : list A)
    (os : list B) :
  Forall2 (λ x o, f o = g x) l os → f <$> os = g <$> l.
Proof.
  induction 1 as [|x o l os H _ IH]; [done|]. rewrite !fmap_cons.
  by f_equal.
Qed.

Lemma Forall2_eq_fmap {A B} (g : A → B) (l : list A) (os : list B) :
  Forall2 (λ x o, o = g x) l os → os = g <$> l.
Proof.
  induction 1 as [|x o l os H _ IH]; [done|]. rewrite !fmap_cons.
  by f_equal.
Qed.

Lemma batch_boundary_names (run_one : Z → string → Py unit)
    (raises : Z * string → W → Exception → Prop) :
  at_record_boundary L run_one raises (λ rec o, names o = (rec.2, "P4333")) →
  ∀ items w, batch_at_record_boundary L run_one raises items w.
Proof.
  intros Hone items w. unfold batch_at_record_boundary.
  destruct (batch_boundary run_one _ _ Hone items w)
    as [(n & os & Hall & Hos & Hres) Hconv].
  split; [|exact Hconv].
  exists n. split.
  - rewrite Hos. by apply Forall2_fmap_eq.
  - destruct (result (exec L (batch run_one items) w)); [|done].
    by destruct Hres.
Qed.

Lemma at_record_boundary_weaken (run_one : Z → string → Py unit)
    (raises : Z * string → W → Exception → Prop)
    (P Q : Z * string → Outcome → Prop) :
  (∀ rec o, P rec o → Q rec o) →
  at_record_boundary L run_one raises P →
  at_record_boundary L run_one raises Q.
Proof.
  intros HPQ H rec w. destruct (H rec w) as [Hconv H1]. cbn zeta in *.
  split; [exact Hconv|].
  destruct (result (exec L (run_one rec.1 rec.2) w)); [|done].
  destruct H1 as (o & Ho & Hk). exists o. split; [by apply HPQ|done].
Qed.

Lemma bulk_outcome_names (m : gmap string string) (rec : Z * string)
    (o : Outcome) :
  o = bulk_outcome m rec → names o = (rec.2, "P4333").
Proof. intros ->. unfold bulk_outcome. by destruct (m !! str rec.1). Qed.

Lemma V2_run_one_no_setup (m : gmap string string) (rec : Z * string) (w : W) :
  Forall (λ e, is_setup_logging e = false)
         (calls (exec L (V2.run_one m rec.1 rec.2) w)).
Proof.
  destruct rec as [t g]. cbn [fst snd].
  destruct (m !! str t) as [qid|] eqn:Hm.
  - rewrite (V2_run_one_found L _ _ _ qid) by done. cbn zeta.
    destruct (lib_engine L _ w) as [[item|e] w1]; cbn [calls];
      by repeat constructor.
  - rewrite V2_run_one_not_found by done. by repeat constructor.
Qed.

Lemma V3_run_one_no_setup (m : gmap string string) (rec : Z * string) (w : W) :
  Forall (λ e, is_setup_logging e = false)
         (calls (exec L (V3.run_one m rec.1 rec.2) w)).
Proof.
  destruct rec as [t g]. cbn [fst snd].
  destruct (m !! str t) as [qid|] eqn:Hm.
  - rewrite (V3_run_one_found L _ _ _ qid) by done. cbn zeta.
    destruct (lib_engine L _ w) as [[item|e] w1]; cbn [calls];
      by repeat constructor.
  - rewrite V3_run_one_not_found by done. by repeat constructor.
Qed.

End Boundary.





(** ** Retrieved dates *)

Section Dates.
Import SpecModel.

Lemma digit_value_digit (n : Z) : digit_value (digit n) = Some (n `mod` 10).
Proof.
  unfold digit_value, digit.
  assert (0 ≤ n `mod` 10 < 10) as Hn by (apply Z.mod_pos_bound; lia).
  rewrite nat_ascii_embedding by lia.
  rewrite decide_True by lia. f_equal. lia.
Qed.

Lemma append_cons (c : ascii) (s r : string) :
  String c s +:+ r = String c (s +:+ r).
Proof. reflexivity. Qed.

Lemma append_empty_l (r : string) : EmptyString +:+ r = r.
Proof. reflexivity. Qed.

Lemma str_four_digits_checked :
  forallb (λ y, bool_decide (str y = four_digits y)) (seqZ 1000 9000) = true.
Proof. vm_compute. reflexivity. Qed.

Lemma str_four_digits (y : Z) : 1000 ≤ y ≤ 9999 → str y = four_digits y.
Proof.
  intros Hy. pose proof str_four_digits_checked as H.
  rewrite forallb_forall in H. specialize (H y).
  apply bool_decide_eq_true in H; [done|].
  apply list_elem_of_In, elem_of_seqZ. lia.
Qed.

Lemma read_four_digits (y : Z) (rest : string) :
  1000 ≤ y ≤ 9999 →
  read_digits 4 0 (four_digits y +:+ rest) = Some (y, rest).
Proof.
  intros Hy. unfold four_digits. rewrite !append_cons, append_empty_l.
  cbn [read_digits]. rewrite !digit_value_digit. cbn [read_digits].
  do 2 f_equal. Z.div_mod_to_equations. lia.
Qed.

Lemma read_two_digits (n : Z) (rest : string) :
  0 ≤ n ≤ 99 →
  read_digits 2 0 (two_digits n +:+ rest) = Some (n, rest).
Proof.
  intros Hn. unfold two_digits. rewrite !append_cons, append_empty_l.
  cbn [read_digits]. rewrite !digit_value_digit. cbn [read_digits].
  do 2 f_equal. Z.div_mod_to_equations. lia.
Qed.

Lemma parse_date_strftime (t : struct_time) :
  valid_date t →
  parse_date (strftime "+%Y-%m-%dT00:00:00Z" t) = Some (date_of t).
Proof.
  intros (Hy & Hm & Hd). rewrite strftime_retrieved, str_four_digits by done.
  unfold parse_date. rewrite append_cons, append_empty_l.
  cbn [read_char]. rewrite decide_True by done. cbn [mbind option_bind].
  rewrite read_four_digits by done. cbn [mbind option_bind].
  rewrite append_cons, append_empty_l.
  cbn [read_char]. rewrite decide_True by done.
  cbn [mbind option_bind]. rewrite read_two_digits by lia.
  cbn [mbind option_bind]. rewrite append_cons, append_empty_l.
  cbn [read_char]. rewrite decide_True by done. cbn [mbind option_bind].
  rewrite read_two_digits by lia. reflexivity.
Qed.

Lemma retrieved_days_accession_statement (g : string) (t : struct_time) :
  valid_date t →
  retrieved_days (references (accession_statement g t))
  = [day_number (date_of t)].
Proof.
  intros Ht. unfold retrieved_days, accession_statement.
  cbn [references concat app omap list_omap retrieved_day].
  rewrite decide_True by done. by rewrite parse_date_strftime.
Qed.

End Dates.

(** ** Planning against the existing state *)

Section Planning.
Import SpecModel.

Lemma in_scope_accession (s : WDExternalID) (others : list WDExternalID) :
  prop_nr s = "P4333" → in_scope base_filter (s :: others).
Proof.
  intros Hs. unfold in_scope, base_filter. simpl.
  constructor; [|constructor].
  simpl. by apply Exists_cons_hd.
Qed.

Lemma snapshot_lookup (f : option (list (string * string))) (st : Store)
    (q : string) (ss : list WDExternalID) :
  st !! q = Some ss → in_scope f ss → snapshot f st !! q = Some ss.
Proof. intros H1 H2. unfold snapshot. by apply map_lookup_filter_Some. Qed.

Lemma find_same_fact_head (g : string) (t0 now : struct_time)
    (others : list WDExternalID) :
  List.find (λ s, bool_decide (same_fact s (accession_statement g now)))
            (accession_statement g t0 :: others)
  = Some (accession_statement g t0).
Proof. simpl. by rewrite bool_decide_eq_true_2. Qed.

Lemma join_NoOp_r (p : WritePlan) : join p NoOp = p.
Proof. by destruct p. Qed.

(** The plan of cell 29 for an entity that already carries the accession
    with the reference made at [t0]. *)
Lemma V3_engine_plan (retry_cap : nat) (w : World) (q g : string)
    (t0 : struct_time) (others : list WDExternalID) :
  valid_date t0 →
  existing w = None →
  store w !! q = Some (accession_statement g t0 :: others) →
  ∃ item w1,
    engine retry_cap (V3_args q g (clock w)) w = (Ok item, w1)
    ∧ plan_of item
      = if decide (180 ≤ today w - day_number (date_of t0))
        then UpdateReference else NoOp.
Proof.
  intros Ht0 Hex Hq. unfold engine.
  cbn [V3_args kw.search_only kw.fast_run kw.fast_run_base_filter kw.data
       kw.wd_item_id].
  eexists _, _. split; [reflexivity|]. cbn [plan_of foldr].
  rewrite join_NoOp_r. unfold ensure_existing. rewrite Hex.
  cbn [existing set_existing]. unfold plan.
  fold base_filter.
  rewrite (snapshot_lookup base_filter (store w) q
             (accession_statement g t0 :: others)) by
    (done || by apply in_scope_accession).
  cbn [default]. unfold id. rewrite find_same_fact_head.
  cbn [freshness_of V3_args kw.fast_run_use_refs kw.ref_handler].
  rewrite retrieved_days_accession_statement by done.
  reflexivity.
Qed.

End Planning.

(** C3. With the reference check of cell 29 (window 180 days), for an
    entity that already carries the accession with the reference made
    on the day [t0], the plan handed to [try_write] is UpdateReference
    when the run's day is 180 days or more after [t0], and NoOp when it
    is less: 181 days give UpdateReference, 179 days NoOp, and the
    boundary of 180 days UpdateReference. *)
Theorem staleness_window_of_180_days
    (retry_cap : nat) (unique : gmap string bool)
    (tax_qid_map : gmap string string) (taxid : Z) (g qid : string)
    (w : SpecModel.World) (t0 : struct_time) (others : list WDExternalID) :
  tax_qid_map !! str taxid = Some qid →
  valid_date t0 →
  SpecModel.existing w = None →
  SpecModel.store w !! qid = Some (accession_statement g t0 :: others) →
  let age := SpecModel.today w - SpecModel.day_number (date_of t0) in
  let r := exec (SpecModel.client retry_cap unique)
                (V3.run_one tax_qid_map taxid g) w in
  planned (calls r) = [if decide (180 ≤ age) then UpdateReference else NoOp]
  ∧ (age = 181 → planned (calls r) = [UpdateReference])
  ∧ (age = 179 → planned (calls r) = [NoOp])
  ∧ (age = 180 → planned (calls r) = [UpdateReference]).
Proof.
  intros Hm Ht0 Hex Hq age r.
  assert (planned (calls r)
          = [if decide (180 ≤ age) then UpdateReference else NoOp]) as Hr.
  { unfold r. rewrite (V3_run_one_found _ _ taxid g qid) by done.
    cbn zeta. cbn [lib_engine lib_gmtime SpecModel.client].
    destruct (V3_engine_plan retry_cap w qid g t0 others)
      as (item & w1 & -> & Hplan); [done..|].
    cbn [calls planned omap list_omap]. by rewrite Hplan. }
  split; [done|]. rewrite Hr.
  split_and!; intros Hage; rewrite Hage; reflexivity.
Qed.

Lemma staleness_window_of_180_days_witness :
  let r := exec (SpecModel.client 3 (wd_properties ∅))
                (V3.run_one Stale.tax_qid_map 9 "GCA_900128725.1")
                Stale.world in
  SpecModel.today Stale.world
  - SpecModel.day_number (date_of (Inputs.noon 2017 1 1)) = 181
  ∧ planned (calls r) = [UpdateReference].
Proof.
  split; [reflexivity|].
  refine (proj1 (proj2 (staleness_window_of_180_days 3 (wd_properties ∅)
            Stale.tax_qid_map 9 "GCA_900128725.1" "Q383453"
            Stale.world (Inputs.noon 2017 1 1) [Inputs.taxon "9"]
            _ _ _ _)) _).
  - reflexivity.
  - unfold valid_date; simpl; lia.
  - reflexivity.
  - reflexivity.
  - reflexivity.
Defined.

(** ** Running the bulk loop twice *)

Section BulkStep.
Import SpecModel.
Context (retry_cap : nat) (unique : gmap string bool)
        (m : gmap string string).
Let L := client retry_cap unique.

Lemma find_same_fact (g : string) (now : struct_time)
    (ss : list WDExternalID) :
  is_Some (List.find (λ s, bool_decide (same_fact s (accession_statement g now))) ss)
  ↔ has_value "P4333" g ss.
Proof.
  unfold has_value. induction ss as [|s ss IH]; simpl.
  - rewrite Exists_nil. split; [by intros [? ?]|done].
  - rewrite Exists_cons.
    destruct (bool_decide (same_fact s (accession_statement g now))) eqn:Hb.
    + apply bool_decide_eq_true in Hb as [Hp Hv]. split; [|by eauto].
      intros _. by left.
    + apply bool_decide_eq_false in Hb. rewrite IH. split; [by right|].
      intros [[Hp Hv]|H]; [|done]. destruct Hb. by split.
Qed.

Lemma plan_without_freshness (today : Z) (q g : string) (now : struct_time)
    (c : Store) :
  plan None today q (accession_statement g now) (Some c)
  = if decide (carries c q g) then NoOp else Create.
Proof.
  unfold plan, carries.
  pose proof (find_same_fact g now (default [] (c !! q))) as H.
  destruct (List.find _ (default [] (c !! q))) as [s|].
  - rewrite decide_True; [done|]. by apply H.
  - rewrite decide_False; [done|]. intros Hc. apply H in Hc. by destruct Hc.
Qed.

Lemma carries_snapshot (st : Store) (q g : string) :
  carries (snapshot base_filter st) q g ↔ carries st q g.
Proof.
  unfold carries, snapshot.
  destruct (st !! q) as [ss|] eqn:Hq.
  - destruct (decide (in_scope base_filter ss)) as [Hs|Hs].
    + by rewrite (map_lookup_filter_Some_2 _ _ q ss).
    + rewrite (proj2 (map_lookup_filter_None _ _ q)); simpl.
      * split; [by intros ?%Exists_nil|]. intros Hv. destruct Hs.
        constructor; [|constructor]. simpl. unfold has_prop.
        apply Exists_exists in Hv as (s & Hin & Hp & _).
        apply Exists_exists. eauto.
      * right. intros ss' Hss'. by simplify_eq.
  - rewrite (proj2 (map_lookup_filter_None _ _ q)); [done|]. by left.
Qed.

Lemma ensure_existing_cases (w : World) :
  ∃ c, existing (ensure_existing base_filter w) = Some c
       ∧ store (ensure_existing base_filter w) = store w
       ∧ audit (ensure_existing base_filter w) = audit w
       ∧ (existing w = Some c
          ∨ (existing w = None ∧ c = snapshot base_filter (store w))).
Proof.
  unfold ensure_existing. destruct (existing w) as [c|] eqn:H.
  - exists c. rewrite H. split_and!; [done..|by left].
  - exists (snapshot base_filter (store w)). simpl.
    split_and!; [done..|by right].
Qed.

(** What one record does to the world, in bulk mode. *)
Lemma V2_record_not_found (taxid : Z) (g : string) (w : World) :
  m !! str taxid = None →
  let w' := world (exec L (V2.run_one m taxid g) w) in
  existing w' = existing w ∧ store w' = store w
  ∧ audit w' = audit w ++ [Line "WARNING" (not_found_msg taxid g)].
Proof. intros H. cbn zeta. by rewrite V2_run_one_not_found. Qed.

Lemma V2_record_found (taxid : Z) (g q : string) (w : World) :
  m !! str taxid = Some q →
  let w' := world (exec L (V2.run_one m taxid g) w) in
  ∃ c, existing w' = Some c
       ∧ (existing w = Some c
          ∨ (existing w = None ∧ c = snapshot base_filter (store w)))
       ∧ ((carries c q g ∧ store w' = store w
           ∧ audit w' = audit w ++ [skipped_line g q])
          ∨ (¬ carries c q g
             ∧ (∃ rest, store w' = <[q := accession_statement g (clock w) :: rest]> (store w))
             ∧ audit w' = audit w ++ [written_line g q])
          ∨ (¬ carries c q g ∧ store w' = store w
             ∧ ∃ d, audit w' = audit w ++ [Line "ERROR" (format_msg g "P4333" q d None)])).
Proof.
  intros Hm. cbn zeta. rewrite (V2_run_one_found L m taxid g q) by done.
  cbn zeta. unfold L. cbn [lib_engine lib_gmtime lib_try_write client].
  unfold engine.
  cbn [V2_args kw.search_only kw.fast_run kw.fast_run_base_filter kw.data
       kw.wd_item_id foldr]. fold base_filter.
  destruct (ensure_existing_cases w) as (c & Hc & Hst & Hau & Hcases).
  set (w1 := ensure_existing base_filter w) in *.
  rewrite join_NoOp_r, Hc.
  change (freshness_of _) with (@None Z).
  rewrite plan_without_freshness. cbn [world].
  exists c. unfold try_write, execute. cbn [plan_of wd_item_id statements].
  destruct (decide (carries c q g)) as [Hk|Hk].
  - cbn [record severity message append_log existing store audit].
    split; [done|]. split; [done|]. left. by rewrite Hst, Hau.
  - destruct (reach retry_cap (net w1)) as [[|] rest].
    + destruct (decide (Exists _ _)).
      * cbn [record severity message append_log set_net existing store audit].
        split; [done|]. split; [done|]. right; right. rewrite Hst, Hau. eauto.
      * cbn [record severity message append_log set_net set_store existing
             store audit apply_write].
        split; [done|]. split; [done|]. right; left. rewrite Hst, Hau.
        split; [done|]. split; [|done]. eexists. reflexivity.
    + cbn [record severity message append_log set_net existing store audit].
      split; [done|]. split; [done|]. right; right. rewrite Hst, Hau. eauto.
Qed.

End BulkStep.

Section BulkBatch.
Import SpecModel.
Context (retry_cap : nat) (unique : gmap string bool)
        (m : gmap string string).
Let L := client retry_cap unique.
Let run (items : list (Z * string)) (w : World) : Run () World :=
  exec L (batch (V2.run_one m) items) w.
Let step (rec : Z * string) (w : World) : World :=
  world (exec L (V2.run_one m rec.1 rec.2) w).

Lemma run_nil (w : World) : world (run [] w) = w.
Proof. reflexivity. Qed.

Lemma run_cons (rec : Z * string) (items : list (Z * string)) (w : World) :
  world (run (rec :: items) w) = world (run items (step rec w)).
Proof.
  destruct rec as [t g]. unfold run, step. rewrite exec_batch_cons.
  destruct (V2_run_one_line retry_cap unique m (t, g) w) as [Hres _].
  cbn [fst snd] in *. fold L in Hres. by rewrite Hres.
Qed.

Lemma run_audit (items : list (Z * string)) (w : World) :
  ∃ lines, audit (world (run items w)) = audit w ++ lines
           ∧ length lines = length items.
Proof.
  destruct (batch_lines retry_cap unique (V2.run_one m) (describes m)
              (V2_run_one_line retry_cap unique m) items w)
    as (_ & lines & H & Hall).
  exists lines. split; [done|]. symmetry. by eapply Forall2_length.
Qed.

Lemma new_lines_app {A} (w : World) (r : Run A World) (lines : list LogEntry) :
  audit (world r) = audit w ++ lines → new_lines w r = lines.
Proof. intros H. unfold new_lines. by rewrite H, drop_app_length. Qed.

Lemma new_lines_nil (w : World) : new_lines w (run [] w) = [].
Proof. apply new_lines_app. by rewrite app_nil_r. Qed.

Lemma new_lines_cons (rec : Z * string) (items : list (Z * string))
    (w : World) (l : LogEntry) :
  audit (step rec w) = audit w ++ [l] →
  new_lines w (run (rec :: items) w)
  = l :: new_lines (step rec w) (run items (step rec w)).
Proof.
  intros Hl. destruct (run_audit items (step rec w)) as (lines & Hlines & _).
  rewrite (new_lines_app (step rec w) _ lines) by done.
  apply new_lines_app. rewrite run_cons, Hlines, Hl. by rewrite <- app_assoc.
Qed.

(** What one record does, whatever its case. *)
Lemma step_cases (rec : Z * string) (w : World) :
  (m !! str rec.1 = None
   ∧ existing (step rec w) = existing w ∧ store (step rec w) = store w
   ∧ audit (step rec w)
     = audit w ++ [Line "WARNING" (not_found_msg rec.1 rec.2)])
  ∨ ∃ q c,
      m !! str rec.1 = Some q
      ∧ existing (step rec w) = Some c
      ∧ (existing w = Some c
         ∨ (existing w = None ∧ c = snapshot base_filter (store w)))
      ∧ ((carries c q rec.2 ∧ store (step rec w) = store w
          ∧ audit (step rec w) = audit w ++ [skipped_line rec.2 q])
         ∨ (¬ carries c q rec.2
            ∧ (∃ rest, store (step rec w)
                       = <[q := accession_statement rec.2 (clock w) :: rest]>
                           (store w))
            ∧ audit (step rec w) = audit w ++ [written_line rec.2 q])
         ∨ (¬ carries c q rec.2 ∧ store (step rec w) = store w
            ∧ ∃ d, audit (step rec w)
                   = audit w ++ [Line "ERROR"
                                   (format_msg rec.2 "P4333" q d None)])).
Proof.
  destruct (m !! str rec.1) as [q|] eqn:Hm.
  - right. exists q.
    destruct (V2_record_found retry_cap unique m rec.1 rec.2 q w Hm)
      as (c & H). exists c. by split.
  - left. split; [done|]. by apply V2_record_not_found.
Qed.

Lemma targets_cons_found (rec : Z * string) (items : list (Z * string))
    (q : string) :
  m !! str rec.1 = Some q → targets m (rec :: items) = q :: targets m items.
Proof. intros H. unfold targets. simpl. by rewrite H. Qed.

Lemma targets_cons_not_found (rec : Z * string) (items : list (Z * string)) :
  m !! str rec.1 = None → targets m (rec :: items) = targets m items.
Proof. intros H. unfold targets. simpl. by rewrite H. Qed.

(** The loop touches the store only at the entities its records resolve
    to. *)
Lemma run_frame (items : list (Z * string)) (w : World) (q : string) :
  q ∉ targets m items → store (world (run items w)) !! q = store w !! q.
Proof.
  revert w. induction items as [|rec items IH]; intros w Hq; [done|].
  rewrite run_cons.
  destruct (step_cases rec w)
    as [(Hm & _ & Hst & _)|(q0 & c & Hm & _ & _ & Hcases)].
  - rewrite targets_cons_not_found in Hq by done. by rewrite IH, Hst.
  - rewrite (targets_cons_found _ _ q0) in Hq by done.
    apply not_elem_of_cons in Hq as [Hne Hq]. rewrite IH by done.
    destruct Hcases as [(_ & -> & _)|[(_ & [rest ->] & _)|(_ & -> & _)]];
      [done| |done].
    by rewrite lookup_insert_ne.
Qed.

Lemma carries_frame (st st' : Store) (q g : string) :
  st' !! q = st !! q → carries st q g → carries st' q g.
Proof. unfold carries. by intros ->. Qed.

(** First run: a record whose line says "written" is carried by the
    final store, provided no later record resolves to its entity. *)
Lemma run_written_carried (items : list (Z * string)) (w : World)
    (i : nat) (l : LogEntry) :
  NoDup (targets m items) →
  new_lines w (run items w) !! i = Some l →
  is_written l →
  ∃ rec q, items !! i = Some rec ∧ m !! str rec.1 = Some q
           ∧ carries (store (world (run items w))) q rec.2.
Proof.
  revert w i. induction items as [|rec items IH]; intros w i Hnd Hl Hw.
  { by rewrite new_lines_nil in Hl. }
  destruct (step_cases rec w)
    as [(Hm & _ & Hst & Ha)|(q & c & Hm & _ & _ & Hcases)].
  - rewrite (new_lines_cons _ _ _ _ Ha) in Hl.
    rewrite targets_cons_not_found in Hnd by done.
    destruct i as [|i]; simpl in Hl.
    + simplify_eq. destruct Hw as (g' & q' & Hw). by simplify_eq.
    + rewrite run_cons. destruct (IH _ _ Hnd Hl Hw) as (rec' & q' & H). eauto.
  - rewrite (targets_cons_found _ _ q) in Hnd by done.
    apply NoDup_cons in Hnd as [Hq Hnd].
    assert (∃ l0, audit (step rec w) = audit w ++ [l0]
                  ∧ (is_written l0 → carries (store (step rec w)) q rec.2))
      as (l0 & Ha & Hl0).
    { destruct Hcases as [(_ & _ & Ha)|[(_ & [rest Hst] & Ha)|(_ & _ & d & Ha)]];
        eexists; (split; [exact Ha|]).
      - intros (g' & q' & Hw'). by simplify_eq.
      - intros _. unfold carries. rewrite Hst, lookup_insert_eq. simpl.
        by apply Exists_cons_hd.
      - intros (g' & q' & Hw'). by simplify_eq. }
    rewrite (new_lines_cons _ _ _ _ Ha) in Hl. rewrite run_cons.
    destruct i as [|i]; simpl in Hl.
    + simplify_eq. exists rec, q. split; [done|]. split; [done|].
      eapply carries_frame; [by apply run_frame|]. by apply Hl0.
    + destruct (IH _ _ Hnd Hl Hw) as (rec' & q' & H). eauto.
Qed.

Lemma working_state_step (c : Store) (rec : Z * string) (w : World) :
  working_state c w →
  (existing (step rec w) = Some c ∧ is_Some (m !! str rec.1))
  ∨ (working_state c (step rec w) ∧ m !! str rec.1 = None
     ∧ store (step rec w) = store w).
Proof.
  intros Hc.
  destruct (step_cases rec w)
    as [(Hm & He & Hst & _)|(q & c' & Hm & He & Hc' & _)].
  - right. split; [|done]. unfold working_state. by rewrite He, Hst.
  - left. split; [|by rewrite Hm]. rewrite He. f_equal.
    destruct Hc as [Hc|[Hc ->]], Hc' as [Hc'|[Hc' ->]]; congruence.
Qed.

(** Second run: a record the working state carries is skipped. *)
Lemma run_carried_skipped (c : Store) (items : list (Z * string))
    (w : World) (i : nat) (rec : Z * string) (q : string) :
  working_state c w →
  items !! i = Some rec → m !! str rec.1 = Some q → carries c q rec.2 →
  new_lines w (run items w) !! i = Some (skipped_line rec.2 q).
Proof.
  revert w i. induction items as [|rec0 items IH]; intros w i Hc Hi Hm Hk;
    [done|].
  assert (working_state c (step rec0 w)) as Hc'.
  { destruct (working_state_step c rec0 w Hc) as [[H _]|[H _]]; [by left|done]. }
  destruct (step_cases rec0 w)
    as [(Hm0 & _ & _ & Ha)|(q0 & c0 & Hm0 & He & Hc0 & Hcases)].
  - rewrite (new_lines_cons _ _ _ _ Ha).
    destruct i as [|i]; simpl in *; [by simplify_eq|]. by apply IH.
  - assert (c0 = c) as ->.
    { destruct Hc as [Hc|[Hc ->]], Hc0 as [Hc0|[Hc0 ->]]; congruence. }
    destruct i as [|i]; simpl in Hi.
    + simplify_eq.
      destruct Hcases as [(_ & _ & Ha)|[(Hn & _)|(Hn & _)]]; [|done..].
      by rewrite (new_lines_cons _ _ _ _ Ha).
    + destruct Hcases as [(_ & _ & Ha)|[(_ & _ & Ha)|(_ & _ & d & Ha)]];
        rewrite (new_lines_cons _ _ _ _ Ha); simpl; by apply IH.
Qed.

End BulkBatch.

Section TwoRuns.
Import SpecModel.
Context (retry_cap : nat) (unique : gmap string bool)
        (m : gmap string string).
Let run (items : list (Z * string)) (w : World) : Run () World :=
  exec (client retry_cap unique) (batch (V2.run_one m) items) w.
Let step (rec : Z * string) (w : World) : World :=
  world (exec (client retry_cap unique) (V2.run_one m rec.1 rec.2) w).

(** First run: without an error line, every resolved record ends up
    carried by the final store. *)
Lemma run_all_carried (items : list (Z * string)) (w : World) :
  NoDup (targets m items) →
  cache_agrees m w items →
  Forall (λ l, ¬ is_error l) (new_lines w (run items w)) →
  ∀ rec q, rec ∈ items → m !! str rec.1 = Some q →
           carries (store (world (run items w))) q rec.2.
Proof.
  unfold cache_agrees.
  revert w. induction items as [|rec0 items IH]; intros w Hnd Hag Hne rec q Hin Hm.
  { by apply elem_of_nil in Hin. }
  unfold run. rewrite (run_cons retry_cap unique m). fold (step rec0 w).
  destruct (step_cases retry_cap unique m rec0 w)
    as [(Hm0 & He & Hst & Ha)|(q0 & c & Hm0 & He & Hc & Hcases)];
    fold (step rec0 w) in *.
  - unfold run in Hne.
    rewrite (new_lines_cons retry_cap unique m _ _ _ _ Ha) in Hne.
    apply Forall_cons in Hne as [_ Hne].
    rewrite targets_cons_not_found in Hnd, Hag by done.
    apply elem_of_cons in Hin as [->|Hin]; [congruence|].
    apply IH; try done.
    intros c Hc q' g' Hq' Hk. unfold carries. rewrite Hst.
    apply (Hag c); [by rewrite <- He|done..].
  - rewrite (targets_cons_found _ _ _ q0) in Hnd by done.
    apply NoDup_cons in Hnd as [Hq0 Hnd].
    assert (∀ q' g', q' ∈ q0 :: targets m items →
                     carries c q' g' → carries (store w) q' g') as Hcw.
    { intros q' g' Hq' Hk. destruct Hc as [Hc|[Hc ->]].
      - apply (Hag c Hc); [|done].
        by rewrite (targets_cons_found _ _ _ q0).
      - by apply carries_snapshot. }
    assert (∀ q', q' ≠ q0 → store (step rec0 w) !! q' = store w !! q') as Hfr.
    { intros q' Hq'.
      destruct Hcases as [(_ & -> & _)|[(_ & [rest ->] & _)|(_ & -> & _)]];
        [done| |done]. by rewrite lookup_insert_ne. }
    assert (∃ l0, audit (step rec0 w) = audit w ++ [l0]
                  ∧ (¬ is_error l0 → carries (store (step rec0 w)) q0 rec0.2))
      as (l0 & Ha & Hl0).
    { destruct Hcases as [(Hk & Hst & Ha)|[(_ & [rest Hst] & Ha)|(_ & _ & d & Ha)]];
        eexists; (split; [exact Ha|]).
      - intros _. unfold carries. rewrite Hst. apply Hcw; [left|done].
      - intros _. unfold carries. rewrite Hst, lookup_insert_eq. simpl.
        by apply Exists_cons_hd.
      - intros []. by eexists. }
    unfold run in Hne.
    rewrite (new_lines_cons retry_cap unique m _ _ _ _ Ha) in Hne.
    apply Forall_cons in Hne as [Hl Hne].
    apply elem_of_cons in Hin as [->|Hin].
    + assert (q = q0) as -> by congruence.
      eapply carries_frame; [by apply run_frame|]. by apply Hl0.
    + apply IH; try done.
      intros c' Hc' q' g' Hq' Hk. rewrite He in Hc'. simplify_eq.
      unfold carries. rewrite Hfr.
      * apply Hcw; [by right|done].
      * intros ->. done.
Qed.

(** Second run: when the working state carries every resolved record,
    nothing is written and the store stays as it is. *)
Lemma run_all_skipped (c : Store) (items : list (Z * string)) (w : World) :
  working_state c w →
  (∀ rec q, rec ∈ items → m !! str rec.1 = Some q → carries c q rec.2) →
  store (world (run items w)) = store w
  ∧ Forall (λ l, ¬ is_written l) (new_lines w (run items w)).
Proof.
  revert w. induction items as [|rec0 items IH]; intros w Hc Hall.
  { unfold run. rewrite (new_lines_nil retry_cap unique m). by split. }
  assert (working_state c (step rec0 w)) as Hc'.
  { destruct (working_state_step retry_cap unique m c rec0 w Hc)
      as [[H _]|[H _]]; [by left|done]. }
  unfold run. rewrite (run_cons retry_cap unique m). fold (step rec0 w).
  destruct (IH (step rec0 w) Hc') as [IHst IHl].
  { intros rec q Hin. apply Hall. by right. }
  destruct (step_cases retry_cap unique m rec0 w)
    as [(Hm0 & _ & Hst & Ha)|(q0 & c0 & Hm0 & He & Hc0 & Hcases)];
    fold (step rec0 w) in *.
  - rewrite (new_lines_cons retry_cap unique m _ _ _ _ Ha).
    split; [by rewrite <- Hst|]. constructor; [|done].
    intros (g' & q' & H). by simplify_eq.
  - assert (c0 = c) as ->.
    { destruct Hc as [Hc|[Hc ->]], Hc0 as [Hc0|[Hc0 ->]]; congruence. }
    assert (carries c q0 rec0.2) as Hk by (apply Hall; [left|done]).
    destruct Hcases as [(_ & Hst & Ha)|[(Hn & _)|(Hn & _)]]; [|done..].
    rewrite (new_lines_cons retry_cap unique m _ _ _ _ Ha).
    split; [by rewrite <- Hst|]. constructor; [|done].
    intros (g' & q' & H). unfold skipped_line, written_line in H.
    by simplify_eq.
Qed.

End TwoRuns.

(** C2, as stated, fails: one entity carries two taxonomy ids, each with
    one accession.  The first run writes both accessions to the entity,
    the second overwriting the first; the second run finds the first
    accession missing and writes it again.  The final stores differ, and
    the first record is written in both runs. *)
Lemma rerun_two_taxa_counterexample :
  let L := SpecModel.client 3 (wd_properties ∅) in
  let tax_qid_map := SpecModel.tax_qid_map TwoTaxa.organisms in
  let r1 := exec L (batch (V2.run_one tax_qid_map) TwoTaxa.records)
                 TwoTaxa.first_world in
  let w2 := SpecModel.set_existing None (world r1) in
  let r2 := exec L (batch (V2.run_one tax_qid_map) TwoTaxa.records) w2 in
  SpecModel.store (world r2) ≠ SpecModel.store (world r1)
  ∧ new_lines TwoTaxa.first_world r1 !! 0%nat
    = Some (written_line "GCA_000237975.1" "Q21079489")
  ∧ new_lines w2 r2 !! 0%nat
    = Some (written_line "GCA_000237975.1" "Q21079489").
Proof.
  cbn zeta. split_and!.
  - intros H.
    apply (f_equal (λ st : gmap string (list WDExternalID),
                      (λ ss, value <$> ss) <$> (st !! "Q21079489"))) in H.
    vm_compute in H. discriminate.
  - vm_compute. reflexivity.
  - vm_compute. reflexivity.
Qed.

(** C2, amended.  Let no two records of the batch resolve to the same
    entity, and let both runs of the bulk loop start with no existing
    state cached, the second from the store the first left.  Then every
    record whose line in the first run says "written" has a line saying
    "up to date" in the second run (no write); and if no line of the
    first run is an error, the second run leaves the store exactly as
    the first left it and writes nothing. *)
Theorem rerun_skips_what_was_written
    (retry_cap : nat) (unique : gmap string bool)
    (tax_qid_map : gmap string string) (items : list (Z * string))
    (w w2 : SpecModel.World) :
  let L := SpecModel.client retry_cap unique in
  let r1 := exec L (batch (V2.run_one tax_qid_map) items) w in
  let r2 := exec L (batch (V2.run_one tax_qid_map) items) w2 in
  NoDup (targets tax_qid_map items) →
  SpecModel.existing w = None →
  SpecModel.existing w2 = None →
  SpecModel.store w2 = SpecModel.store (world r1) →
  (∀ i l, new_lines w r1 !! i = Some l → is_written l →
          ∃ l', new_lines w2 r2 !! i = Some l' ∧ is_skipped l')
  ∧ (Forall (λ l, ¬ is_error l) (new_lines w r1) →
     SpecModel.store (world r2) = SpecModel.store (world r1)
     ∧ Forall (λ l, ¬ is_written l) (new_lines w2 r2)).
Proof.
  intros L r1 r2 Hnd Hw Hw2 Hst.
  assert (working_state (SpecModel.snapshot base_filter (SpecModel.store w2)) w2)
    as Hws by (by right).
  split.
  - intros i l Hl Hwr.
    destruct (run_written_carried retry_cap unique tax_qid_map items w i l
                Hnd Hl Hwr) as (rec & q & Hi & Hm & Hk).
    eexists. split; [|by eexists _, _].
    eapply run_carried_skipped; [exact Hws|done..|].
    apply carries_snapshot. by rewrite Hst.
  - intros Hne.
    destruct (run_all_skipped retry_cap unique tax_qid_map _ items w2 Hws)
      as [Hst2 Hl2].
    + intros rec q Hin Hm. apply carries_snapshot. rewrite Hst.
      apply run_all_carried; try done.
      intros c Hc. congruence.
    + split; [|done]. fold L in Hst2. fold r2 in Hst2. by rewrite Hst2.
Qed.

Lemma rerun_skips_what_was_written_witness :
  let L := SpecModel.client 3 (wd_properties ∅) in
  let tax_qid_map := SpecModel.tax_qid_map Inputs.two_organisms in
  let r1 := exec L (batch (V2.run_one tax_qid_map) Inputs.two_records)
                 Inputs.quiet_world in
  let w2 := SpecModel.set_existing None (world r1) in
  let r2 := exec L (batch (V2.run_one tax_qid_map) Inputs.two_records) w2 in
  NoDup (targets tax_qid_map Inputs.two_records)
  ∧ new_lines Inputs.quiet_world r1
    = [written_line "GCA_900128725.1" "Q383453";
       written_line "GCA_002310475.1" "Q25379953"]
  ∧ SpecModel.store (world r2) = SpecModel.store (world r1).
Proof.
  cbn zeta.
  assert (NoDup (targets (SpecModel.tax_qid_map Inputs.two_organisms)
                   Inputs.two_records)) as Hnd.
  { refine (bool_decide_unpack _ _). vm_compute. exact I. }
  assert (new_lines Inputs.quiet_world
            (exec (SpecModel.client 3 (wd_properties ∅))
               (batch (V2.run_one (SpecModel.tax_qid_map Inputs.two_organisms))
                  Inputs.two_records) Inputs.quiet_world)
          = [written_line "GCA_900128725.1" "Q383453";
             written_line "GCA_002310475.1" "Q25379953"]) as Hlines.
  { vm_compute. reflexivity. }
  split; [exact Hnd|]. split; [exact Hlines|].
  refine (proj1 (proj2 (rerun_skips_what_was_written 3 (wd_properties ∅)
            (SpecModel.tax_qid_map Inputs.two_organisms) Inputs.two_records
            Inputs.quiet_world _ Hnd _ _ _) _)).
  - reflexivity.
  - reflexivity.
  - reflexivity.
  - rewrite Hlines. repeat constructor; intros [? H]; discriminate H.
Defined.

(** * Further properties of the cells *)

(** ** Cell 8: the loader *)

Section LoaderMore.
Import Loader.

Lemma load_lookup_accessions (df : list Row) (k : Z) :
  load df !! k
  = match accessions df k with
    | [v] => Some v
    | _ => None
    end.
Proof.
  unfold load, single_accession, accessions.
  rewrite lookup_omap, groupby_TaxID_lookup.
  by destruct (Assembly_Accession <$> filter _ (query_complete df))
    as [|a [|b l]].
Qed.

Lemma load_ext (df df' : list Row) :
  (∀ k, accessions df k ≡ₚ accessions df' k) → load df = load df'.
Proof.
  intros H. apply map_eq. intros k. rewrite !load_lookup_accessions.
  specialize (H k).
  destruct (accessions df k) as [|a [|b l]].
  - apply Permutation_nil_l in H. by rewrite <- H.
  - apply Permutation_singleton_l in H. by rewrite <- H.
  - pose proof (Permutation_length H) as Hlen.
    by destruct (accessions df' k) as [|a' [|b' l']].
Qed.

Lemma load_lookup_row (df : list Row) (k : Z) (v : string) :
  load df !! k = Some v →
  ∃ r, r ∈ df ∧ Status r = "Complete Genome"
       ∧ TaxID r = k ∧ Assembly_Accession r = v.
Proof.
  intros H%load_lookup.
  assert (v ∈ accessions df k) as Hv by (rewrite H; left).
  unfold accessions, query_complete in Hv.
  apply list_elem_of_fmap in Hv as (r & -> & Hr).
  apply list_elem_of_filter in Hr as [Hk Hr].
  apply list_elem_of_filter in Hr as [Hs Hr]. eauto.
Qed.

End LoaderMore.

(** X1. A row whose status is not 'Complete Genome' has no influence on
    the loader's output, wherever it stands in the table. *)
Theorem load_ignores_rows_of_other_status
    (df1 df2 : list Loader.Row) (r : Loader.Row) :
  Loader.Status r ≠ "Complete Genome" →
  Loader.load (df1 ++ r :: df2) = Loader.load (df1 ++ df2).
Proof.
  intros Hr. apply load_ext. intros k. unfold Loader.accessions.
  unfold Loader.query_complete.
  by rewrite !filter_app, (filter_cons_False _ r) by done.
Qed.

Lemma load_ignores_rows_of_other_status_witness :
  Loader.load Inputs.sample_rows
  = Loader.load (take 1 Inputs.sample_rows ++ drop 2 Inputs.sample_rows).
Proof.
  refine (load_ignores_rows_of_other_status (take 1 Inputs.sample_rows)
            (drop 2 Inputs.sample_rows)
            {| Loader.Status := "Contig"; Loader.TaxID := 9;
               Loader.Assembly_Accession := "GCA_000000000.1" |} _).
  discriminate.
Defined.

(** X2. The loader's output does not depend on the order of the rows of
    the table. *)
Theorem load_row_order_irrelevant (df df' : list Loader.Row) :
  df ≡ₚ df' → Loader.load df = Loader.load df'.
Proof.
  intros H. apply load_ext. intros k. unfold Loader.accessions.
  unfold Loader.query_complete. by rewrite H.
Qed.

Lemma load_row_order_irrelevant_witness :
  Loader.load Inputs.sample_rows = Loader.load (reverse Inputs.sample_rows).
Proof.
  apply load_row_order_irrelevant. symmetry. apply reverse_Permutation.
Defined.

(** X3. Every entry of the loader's output comes from the table: for an
    emitted pair (k, v) there is a row with status 'Complete Genome',
    taxonomy id k and accession v. *)
Theorem load_entries_are_admitted_rows
    (df : list Loader.Row) (k : Z) (v : string) :
  Loader.load df !! k = Some v →
  ∃ r, r ∈ df ∧ Loader.Status r = "Complete Genome"
       ∧ Loader.TaxID r = k ∧ Loader.Assembly_Accession r = v.
Proof. apply load_lookup_row. Qed.

Lemma load_entries_are_admitted_rows_witness :
  ∃ r, r ∈ Inputs.sample_rows ∧ Loader.Status r = "Complete Genome"
       ∧ Loader.TaxID r = 9 ∧ Loader.Assembly_Accession r = "GCA_900128725.1".
Proof.
  apply (load_entries_are_admitted_rows Inputs.sample_rows 9 "GCA_900128725.1").
  vm_compute. reflexivity.
Defined.

(** X4. What one more row at the head of the table does: a row of
    another status changes nothing; an admitted row adds its taxonomy id
    with its accession when no admitted row had that id, removes the id
    when some admitted row had it, and leaves every other id as it
    was. *)
Theorem load_one_more_row (r : Loader.Row) (df : list Loader.Row) (k : Z) :
  Loader.load (r :: df) !! k
  = if decide (Loader.Status r = "Complete Genome" ∧ Loader.TaxID r = k)
    then match Loader.accessions df k with
         | [] => Some (Loader.Assembly_Accession r)
         | _ => None
         end
    else Loader.load df !! k.
Proof.
  rewrite !load_lookup_accessions. unfold Loader.accessions.
  unfold Loader.query_complete.
  destruct (decide (Loader.Status r = "Complete Genome")) as [Hs|Hs].
  - rewrite (filter_cons_True _ r) by done.
    destruct (decide (Loader.TaxID r = k)) as [Hk|Hk].
    + rewrite (filter_cons_True _ r) by done. rewrite decide_True by done.
      rewrite fmap_cons.
      by destruct (Loader.Assembly_Accession <$> filter _ (filter _ df)).
    + rewrite (filter_cons_False _ r) by done.
      by rewrite decide_False by (by intros [_ ?]).
  - rewrite (filter_cons_False _ r) by done.
    by rewrite decide_False by (by intros [? _]).
Qed.

(** X5. The loader emits at most as many entries as the table has rows
    with status 'Complete Genome'; an empty table gives an empty
    mapping. *)
Theorem load_size_bound (df : list Loader.Row) :
  (size (Loader.load df) ≤ length (Loader.query_complete df))%nat
  ∧ Loader.load [] = ∅.
Proof.
  split; [|done].
  rewrite <- (length_fmap Loader.TaxID (Loader.query_complete df)).
  rewrite <- length_map_to_list.
  rewrite <- (length_fmap fst (map_to_list (Loader.load df))).
  apply submseteq_length, NoDup_submseteq.
  - apply NoDup_fst_map_to_list.
  - intros k (kv & -> & Hkv)%list_elem_of_fmap. destruct kv as [k v].
    apply elem_of_map_to_list, load_lookup_row in Hkv
      as (r & Hr & Hs & Hk & _).
    simpl. rewrite <- Hk. apply list_elem_of_fmap_2.
    unfold Loader.query_complete. by apply list_elem_of_filter.
Qed.

(** ** Cell 24: the identifier index *)

(** X6. The filter of cell 24 keeps an identifier exactly when its set
    of entities is a singleton, and maps it to that one entity;
    identifiers with no entity or with several are dropped. *)
Theorem single_item_lookup (m : gmap string (gset string)) (k q : string) :
  single_item m !! k = Some q ↔ m !! k = Some {[ q ]}.
Proof.
  unfold single_item. rewrite lookup_omap.
  destruct (m !! k) as [S|]; simpl; [|done].
  case_decide as Hsize; split.
  - intros Hq. apply size_1_elem_of in Hsize as [x Hx].
    apply leibniz_equiv in Hx. subst S.
    rewrite elements_singleton in Hq. by simplify_eq/=.
  - intros [= ->]. by rewrite elements_singleton.
  - done.
  - intros [= ->]. by rewrite size_singleton in Hsize.
Qed.

(** ** Cells 25 and 26: which entities a batch reaches *)

Section Reach.
Context {W : Type} (L : Library W).

Lemma engine_targets_prefix (m : gmap string string)
    (items : list (Z * string)) (w : W) :
  engine_targets (calls (exec L (batch (V2.run_one m) items) w))
  `prefix_of` targets m items.
Proof.
  revert w. induction items as [|[t g] items IH]; intros w.
  - apply prefix_nil.
  - rewrite exec_batch_cons. unfold engine_targets, targets.
    cbn [omap list_omap fst].
    destruct (m !! str t) as [qid|] eqn:Hm.
    + rewrite (V2_run_one_found L _ _ _ qid) by done. cbn zeta.
      destruct (lib_engine L _ w) as [[item|e] w1]; cbn [result world calls].
      * rewrite omap_app. cbn [omap list_omap V2_args kw.wd_item_id app].
        apply prefix_cons, IH.
      * cbn [omap list_omap V2_args kw.wd_item_id].
        apply prefix_cons, prefix_nil.
    + rewrite V2_run_one_not_found by done. cbn [result world calls].
      rewrite omap_app. cbn [omap list_omap app]. apply IH.
Qed.

Lemma targets_NoDup (m : gmap string string) (items : list (Z * string)) :
  NoDup (items.*1) →
  (∀ k1 k2 q, m !! k1 = Some q → m !! k2 = Some q → k1 = k2) →
  NoDup (targets m items).
Proof.
  intros Hnd Hinj. induction items as [|rec items IH]; [constructor|].
  rewrite fmap_cons in Hnd. apply NoDup_cons in Hnd as [Hrec Hnd].
  unfold targets. simpl.
  destruct (m !! str rec.1) as [q|] eqn:Hq; [|by apply IH].
  constructor; [|by apply IH].
  intros (rec' & Hin & Hq')%list_elem_of_omap.
  apply Hrec. pose proof (Hinj _ _ _ Hq Hq') as Hstr.
  apply (inj pretty) in Hstr. rewrite Hstr. by apply list_elem_of_fmap_2.
Qed.

End Reach.

(** X7. The loop of cell 26 never asks the engine twice for the same
    entity: whatever the client does, when the taxonomy ids of the batch
    are pairwise distinct (they are the keys of a dict) and no two
    identifiers of the index share an entity, the entities of the
    engine calls of a run of the batch are pairwise distinct. *)
Theorem distinct_records_reach_distinct_entities
    (W : Type) (L : Library W) (tax_qid_map : gmap string string)
    (items : list (Z * string)) (w : W) :
  NoDup (items.*1) →
  (∀ k1 k2 q, tax_qid_map !! k1 = Some q → tax_qid_map !! k2 = Some q →
              k1 = k2) →
  NoDup (engine_targets
           (calls (exec L (batch (V2.run_one tax_qid_map) items) w))).
Proof.
  intros Hnd Hinj.
  destruct (engine_targets_prefix L tax_qid_map items w) as [k Hk].
  pose proof (targets_NoDup tax_qid_map items Hnd Hinj) as Ht.
  rewrite Hk in Ht. by apply NoDup_app in Ht as [? _].
Qed.

Lemma distinct_records_reach_distinct_entities_witness :
  let r := exec (Clients.finds "Q383453")
                (batch (V2.run_one Inputs.two_index) Inputs.two_records) [] in
  engine_targets (calls r) = ["Q383453"; "Q25379953"]
  ∧ NoDup (engine_targets (calls r)).
Proof.
  split; [reflexivity|].
  apply distinct_records_reach_distinct_entities.
  - apply NoDup_cons. split; [|apply NoDup_singleton].
    intros H%list_elem_of_singleton. discriminate H.
  - unfold Inputs.two_index. intros k1 k2 q H1 H2.
    apply lookup_insert_Some in H1 as [[<- <-]|[_ H1]];
      apply lookup_insert_Some in H2 as [[<- H2]|[_ H2]].
    + reflexivity.
    + apply lookup_singleton_Some in H2 as [_ H2]. discriminate H2.
    + apply lookup_singleton_Some in H1 as [_ <-]. discriminate H2.
    + apply lookup_singleton_Some in H1 as [<- _].
      by apply lookup_singleton_Some in H2 as [<- _].
Defined.

(** ** Cell 20: the per-record [run_one], for every client *)

(** X8. When the lookup returns an item without an id, [run_one] logs
    one WARNING line "No organism found with taxid ..." and returns; the
    lookup is its only call to the engine and no write is attempted. *)
Theorem per_record_not_found_logs_warning
    (W : Type) (L : Library W) (taxid : Z) (g : string) (w w1 : W)
    (item : WDItem) :
  lib_engine L (V1_search_args taxid) w = (Ok item, w1) →
  wd_item_id item = EmptyString →
  exec L (V1.run_one taxid g) w
  = mkRun (Ok ()) (lib_log L "WARNING" (no_organism_msg taxid g) w1)
          [EvEngine (V1_search_args taxid);
           EvLog "WARNING" (no_organism_msg taxid g)].
Proof.
  intros He Hid. rewrite V1_run_one_exec. cbn zeta. rewrite He.
  by rewrite decide_False by (by intros []).
Qed.

Lemma per_record_not_found_logs_warning_witness :
  world (exec Clients.finds_nothing (V1.run_one 9 "GCA_900128725.1") [])
  = [("WARNING", no_organism_msg 9 "GCA_900128725.1")].
Proof.
  rewrite (per_record_not_found_logs_warning _ Clients.finds_nothing 9
             "GCA_900128725.1" [] [] Clients.no_item); reflexivity.
Defined.

(** X9. An exception of the lookup other than
    ManualInterventionReqException is not caught: it leaves [run_one]
    with nothing logged and no write attempted. *)
Theorem per_record_other_exception_propagates
    (W : Type) (L : Library W) (taxid : Z) (g : string) (w w1 : W)
    (class_name message : string) :
  lib_engine L (V1_search_args taxid) w
  = (Err (OtherException class_name message), w1) →
  exec L (V1.run_one taxid g) w
  = mkRun (Err (OtherException class_name message)) w1
          [EvEngine (V1_search_args taxid)].
Proof. intros He. rewrite V1_run_one_exec. cbn zeta. by rewrite He. Qed.

Lemma per_record_other_exception_propagates_witness :
  result (exec Clients.offline (V1.run_one 9 "GCA_900128725.1") [])
  = Err (OtherException "ConnectionError" "no route to host").
Proof.
  rewrite (per_record_other_exception_propagates _ Clients.offline 9
             "GCA_900128725.1" [] [] "ConnectionError" "no route to host");
    reflexivity.
Defined.

(** X10. When the lookup raises ManualInterventionReqException,
    [run_one] logs one ERROR line carrying the accession, P4333, the
    text of the exception and its class name, and returns normally; no
    second engine is built and no write is attempted. *)
Theorem per_record_manual_intervention_is_logged
    (W : Type) (L : Library W) (taxid : Z) (g : string) (w w1 : W)
    (message : string) :
  lib_engine L (V1_search_args taxid) w
  = (Err (ManualInterventionReqException message), w1) →
  exec L (V1.run_one taxid g) w
  = mkRun (Ok ())
          (lib_log L "ERROR"
             (format_msg g "P4333" EmptyString message
                (Some "ManualInterventionReqException")) w1)
          [EvEngine (V1_search_args taxid);
           EvLog "ERROR"
             (format_msg g "P4333" EmptyString message
                (Some "ManualInterventionReqException"))].
Proof. intros He. rewrite V1_run_one_exec. cbn zeta. by rewrite He. Qed.

Lemma per_record_manual_intervention_is_logged_witness :
  world (exec Clients.ambiguous (V1.run_one 562 "GCA_000005845.2") [])
  = [("ERROR", format_msg "GCA_000005845.2" "P4333" EmptyString "two items"
                 (Some "ManualInterventionReqException"))].
Proof.
  rewrite (per_record_manual_intervention_is_logged _ Clients.ambiguous 562
             "GCA_000005845.2" [] [] "two items"); reflexivity.
Defined.

(** X11. When the lookup returns an item with an id, [run_one] builds
    the reference, asks the engine for exactly that id with the
    accession statement and no fast-run, and hands the item it gets to
    [try_write] under the accession and P4333; if that second engine
    call raises, the exception leaves [run_one] and no write is
    attempted. *)
Theorem per_record_found_writes_to_looked_up_item
    (W : Type) (L : Library W) (taxid : Z) (g : string) (w w1 : W)
    (item : WDItem) :
  lib_engine L (V1_search_args taxid) w = (Ok item, w1) →
  wd_item_id item ≠ EmptyString →
  let a2 := V1_write_args (wd_item_id item) g (lib_gmtime L w1) in
  let r := exec L (V1.run_one taxid g) w in
  kw.fast_run a2 = false
  ∧ kw.data a2 = [accession_statement g (lib_gmtime L w1)]
  ∧ match lib_engine L a2 w1 with
    | (Ok item2, w2) =>
        r = mkRun (Ok ())
              (lib_try_write L item2 g "P4333"
                 "update GenBank Assembly accession" w2)
              [EvEngine (V1_search_args taxid); EvGmtime; EvEngine a2;
               EvTryWrite item2 g "P4333" "update GenBank Assembly accession"]
    | (Err e, w2) =>
        r = mkRun (Err e) w2
              [EvEngine (V1_search_args taxid); EvGmtime; EvEngine a2]
    end.
Proof.
  intros He Hid a2 r. split; [done|]. split; [done|].
  unfold r. rewrite V1_run_one_exec. cbn zeta. rewrite He.
  rewrite decide_True by done. fold a2.
  by destruct (lib_engine L a2 w1) as [[item2|e] w2].
Qed.

Lemma per_record_found_writes_to_looked_up_item_witness :
  write_targets
    (calls (exec (Clients.finds "Q383453") (V1.run_one 9 "GCA_900128725.1") []))
  = ["Q383453"].
Proof.
  pose proof (per_record_found_writes_to_looked_up_item _
                (Clients.finds "Q383453") 9 "GCA_900128725.1" [] []
                {| wd_item_id := "Q383453";
                   statements := kw.data (V1_search_args 9);
                   plan_of := Create |}) as H.
  cbn zeta in H. destruct H as (_ & _ & H); [reflexivity|discriminate|].
  cbn [lib_engine Clients.finds Clients.base] in H. rewrite H. reflexivity.
Defined.

(** ** Cells 25 and 29: the bulk [run_one], for every client *)

(** X12. Cell 25 has no handler of its own: when the engine raises,
    whatever the exception, it leaves [run_one]; nothing is logged and
    no write is attempted. *)
Theorem bulk_engine_exception_propagates
    (W : Type) (L : Library W) (tax_qid_map : gmap string string)
    (taxid : Z) (g qid : string) (w w1 : W) (e : Exception) :
  tax_qid_map !! str taxid = Some qid →
  lib_engine L (V2_args qid g (lib_gmtime L w)) w = (Err e, w1) →
  exec L (V2.run_one tax_qid_map taxid g) w
  = mkRun (Err e) w1 [EvGmtime; EvEngine (V2_args qid g (lib_gmtime L w))].
Proof.
  intros Hm He. rewrite (V2_run_one_found L _ _ _ qid) by done.
  cbn zeta. by rewrite He.
Qed.

Lemma bulk_engine_exception_propagates_witness :
  exec Clients.ambiguous
       (V2.run_one Stale.tax_qid_map 9 "GCA_900128725.1") []
  = mkRun (Err (ManualInterventionReqException "two items")) []
          [EvGmtime;
           EvEngine (V2_args "Q383453" "GCA_900128725.1"
                       (Inputs.noon 2017 10 13))].
Proof.
  apply (bulk_engine_exception_propagates _ Clients.ambiguous
           Stale.tax_qid_map 9 "GCA_900128725.1" "Q383453"); reflexivity.
Defined.

(** X13. Cell 29 resolves like cell 25, by the decimal string of the
    taxonomy id: without an index entry it logs the same WARNING line
    and makes no other call; with one it asks the engine for that
    entity, and every engine call it makes has the reference mode
    CUSTOM, reference checking switched on and the handler
    update_retrieved_if_new with days=180. *)
Theorem ref_check_run_one_resolution_and_settings
    (W : Type) (L : Library W) (tax_qid_map : gmap string string)
    (taxid : Z) (g : string) (w : W) :
  let r := exec L (V3.run_one tax_qid_map taxid g) w in
  engine_targets (calls r)
  = match tax_qid_map !! str taxid with
    | Some qid => [qid]
    | None => []
    end
  ∧ omap ref_settings (calls r)
    = match tax_qid_map !! str taxid with
      | Some qid =>
          [("CUSTOM", true, Some (update_retrieved_if_new 180))]
      | None => []
      end
  ∧ (tax_qid_map !! str taxid = None →
     r = exec L (V2.run_one tax_qid_map taxid g) w).
Proof.
  cbn zeta. destruct (tax_qid_map !! str taxid) as [qid|] eqn:Hm.
  - rewrite (V3_run_one_found L _ _ _ qid) by done. cbn zeta.
    destruct (lib_engine L _ w) as [[item|e] w1]; by split_and!.
  - rewrite V3_run_one_not_found, V2_run_one_not_found by done. by split_and!.
Qed.

(** X14. Cell 25 never checks references: every engine call it makes
    has the default reference mode, reference checking switched off and
    no handler. *)
Theorem bulk_run_one_never_checks_references
    (W : Type) (L : Library W) (tax_qid_map : gmap string string)
    (taxid : Z) (g : string) (w : W) :
  Forall (λ s, s = ("KEEP_GOOD", false, None))
         (omap ref_settings
               (calls (exec L (V2.run_one tax_qid_map taxid g) w))).
Proof.
  destruct (tax_qid_map !! str taxid) as [qid|] eqn:Hm.
  - rewrite (V2_run_one_found L _ _ _ qid) by done. cbn zeta.
    destruct (lib_engine L _ w) as [[item|e] w1]; simpl;
      by repeat constructor.
  - rewrite V2_run_one_not_found by done. simpl. constructor.
Qed.

(** ** Cells 22, 26 and 30: the loops, for every client *)

Section Loops.
Context {W : Type} (L : Library W).

Lemma serves_a_record_mono (m : gmap string string)
    (items items' : list (Z * string)) (e : Event) :
  items ⊆ items' → serves_a_record m items e → serves_a_record m items' e.
Proof.
  intros Hsub. destruct e; simpl; try done.
  - intros (H1 & H2 & rec & Hin & H). split; [done|]. split; [done|].
    exists rec. split; [by apply Hsub|done].
  - intros (H1 & rec & Hin & H). split; [done|]. exists rec.
    split; [by apply Hsub|done].
Qed.

Lemma V2_run_one_serves (m : gmap string string) (rec : Z * string) (w : W) :
  Forall (serves_a_record m [rec])
         (calls (exec L (V2.run_one m rec.1 rec.2) w)).
Proof.
  destruct rec as [t g]. cbn [fst snd].
  destruct (m !! str t) as [qid|] eqn:Hm.
  - rewrite (V2_run_one_found L _ _ _ qid) by done. cbn zeta.
    assert (serves_a_record m [(t, g)] (EvEngine (V2_args qid g (lib_gmtime L w)))).
    { simpl. split; [done|]. split; [done|]. exists (t, g).
      split; [left|]. by split. }
    destruct (lib_engine L _ w) as [[item|e] w1]; cbn [calls].
    + constructor; [done|]. constructor; [done|].
      constructor; [|constructor].
      simpl. split; [done|]. exists (t, g). split; [left|done].
    + constructor; [done|]. constructor; [done|]. constructor.
  - rewrite V2_run_one_not_found by done. cbn [calls].
    constructor; [done|]. constructor.
Qed.

Lemma V3_run_one_serves (m : gmap string string) (rec : Z * string) (w : W) :
  Forall (serves_a_record m [rec])
         (calls (exec L (V3.run_one m rec.1 rec.2) w)).
Proof.
  destruct rec as [t g]. cbn [fst snd].
  destruct (m !! str t) as [qid|] eqn:Hm.
  - rewrite (V3_run_one_found L _ _ _ qid) by done. cbn zeta.
    assert (serves_a_record m [(t, g)] (EvEngine (V3_args qid g (lib_gmtime L w)))).
    { simpl. split; [done|]. split; [done|]. exists (t, g).
      split; [left|]. by split. }
    destruct (lib_engine L _ w) as [[item|e] w1]; cbn [calls].
    + constructor; [done|]. constructor; [done|].
      constructor; [|constructor].
      simpl. split; [done|]. exists (t, g). split; [left|done].
    + constructor; [done|]. constructor; [done|]. constructor.
  - rewrite V3_run_one_not_found by done. cbn [calls].
    constructor; [done|]. constructor.
Qed.

End Loops.

(** X15. The loop composes and stops at the first exception: running it
    over [xs ++ ys] is running it over [xs] and then, if no [run_one]
    raised, over [ys] from the world that was reached; if one raised,
    the records of [ys] are not visited and the exception is the
    loop's. *)
Theorem batch_over_appended_records
    (W : Type) (L : Library W) (run_one : Z → string → Py unit)
    (xs ys : list (Z * string)) (w : W) :
  exec L (batch run_one (xs ++ ys)) w
  = let r1 := exec L (batch run_one xs) w in
    match result r1 with
    | Ok _ =>
        let r2 := exec L (batch run_one ys) (world r1) in
        mkRun (result r2) (world r2) (calls r1 ++ calls r2)
    | Err e => mkRun (Err e) (world r1) (calls r1)
    end.
Proof.
  revert w. induction xs as [|[t g] xs IH]; intros w.
  - simpl. by destruct (exec L (batch run_one ys) w).
  - rewrite <- app_comm_cons, !exec_batch_cons. cbn zeta.
    destruct (result (exec L (run_one t g) w)); [|done].
    rewrite IH. cbn zeta. cbn [result world calls].
    destruct (result (exec L (batch run_one xs) _)); cbn [result world calls];
      [|done].
    by rewrite app_assoc.
Qed.

(** X16. Whatever the client does, the notebook as written never issues
    a per-record lookup, and every call it makes to the engine or to
    [try_write] serves a record of the batch: the engine is asked, in
    fast-run mode, for the entity the index gives a record, with that
    record's accession as the one statement, under P4333; a write is
    attempted only under P4333 and the accession of a record. *)
Theorem notebook_calls_serve_records
    (W : Type) (L : Library W) (tax_qid_map : gmap string string)
    (items : list (Z * string)) (w : W) :
  Forall (serves_a_record tax_qid_map items)
         (calls (exec L (notebook tax_qid_map items) w)).
Proof.
  unfold notebook.
  apply calls_bind_Forall.
  { rewrite exec_setup_logging_cell. cbn zeta. cbn [calls].
    by repeat constructor. }
  intros _ w1.
  apply calls_bind_Forall; [by rewrite exec_batch_pass|]. intros _ w2.
  apply calls_bind_Forall.
  - apply calls_batch_Forall. intros rec w' Hin.
    eapply Forall_impl; [apply V2_run_one_serves|].
    intros e. apply serves_a_record_mono.
    intros x ->%list_elem_of_singleton. done.
  - intros _ w3. apply calls_batch_Forall. intros rec w' Hin.
    eapply Forall_impl; [apply V3_run_one_serves|].
    intros e. apply serves_a_record_mono.
    intros x ->%list_elem_of_singleton. done.
Qed.

(** ** Cell 18: the reference *)

(** X17. The reference depends on the clock through the UTC date only:
    two calls made on the same day, at whatever time of day and against
    whatever client, build the same three statements. *)
Theorem create_reference_depends_on_date_only
    (W1 W2 : Type) (L1 : Library W1) (L2 : Library W2) (w1 : W1) (w2 : W2)
    (g : string) :
  date_of (lib_gmtime L1 w1) = date_of (lib_gmtime L2 w2) →
  result (exec L1 (create_reference g) w1)
  = result (exec L2 (create_reference g) w2).
Proof.
  intros [= Hy Hm Hd]. rewrite !exec_create_reference, !strftime_retrieved.
  cbn [result]. by rewrite Hy, Hm, Hd.
Qed.

Lemma create_reference_depends_on_date_only_witness :
  let L := SpecModel.client 3 (wd_properties ∅) in
  lib_gmtime L Inputs.early_world ≠ lib_gmtime L Inputs.late_world
  ∧ result (exec L (create_reference "GCA_900128725.1") Inputs.early_world)
    = result (exec L (create_reference "GCA_900128725.1") Inputs.late_world).
Proof.
  split; [discriminate|].
  apply create_reference_depends_on_date_only. reflexivity.
Defined.

(** X18. References tell accessions apart: at one clock, the references
    built for two accessions are equal only if the accessions are. *)
Theorem create_reference_injective
    (W : Type) (L : Library W) (w : W) (g g' : string) :
  result (exec L (create_reference g) w)
  = result (exec L (create_reference g') w) →
  g = g'.
Proof.
  rewrite !exec_create_reference. cbn [result]. intros H.
  injection H as H. exact H.
Qed.

Lemma create_reference_injective_witness :
  "GCA_900128725.1" ≠ "GCA_002310475.1"
  ∧ result (exec Clients.offline (create_reference "GCA_900128725.1") [])
    ≠ result (exec Clients.offline (create_reference "GCA_002310475.1") []).
Proof.
  split; [discriminate|]. intros H.
  apply (create_reference_injective _ Clients.offline []) in H.
  discriminate H.
Defined.

(** X19. Whatever the client does, the bulk loop asks the engine for
    the entities of the resolved records in the order of the batch: the
    entities asked for are a prefix of the batch's targets, all of them
    when the loop returns normally; and it attempts at most one write
    per engine call. *)
Theorem bulk_loop_asks_in_order
    (W : Type) (L : Library W) (tax_qid_map : gmap string string)
    (items : list (Z * string)) (w : W) :
  let r := exec L (batch (V2.run_one tax_qid_map) items) w in
  engine_targets (calls r) `prefix_of` targets tax_qid_map items
  ∧ (result r = Ok () → engine_targets (calls r) = targets tax_qid_map items)
  ∧ (length (write_targets (calls r)) ≤ length (engine_targets (calls r)))%nat.
Proof.
  cbn zeta. revert w. induction items as [|[t g] items IH]; intros w.
  - simpl. split_and!; [apply prefix_nil|done|done].
  - rewrite exec_batch_cons. unfold engine_targets, write_targets, targets.
    cbn [omap list_omap fst].
    destruct (tax_qid_map !! str t) as [qid|] eqn:Hm.
    + rewrite (V2_run_one_found L _ _ _ qid) by done. cbn zeta.
      destruct (lib_engine L _ w) as [[item|e] w1]; cbn [result world calls].
      * destruct (IH (lib_try_write L item g "P4333"
                        "update GenBank Assembly accession" w1))
          as (IH1 & IH2 & IH3).
        rewrite !omap_app. cbn [omap list_omap V2_args kw.wd_item_id app].
        split_and!.
        -- by apply prefix_cons.
        -- intros Hok. f_equal. by apply IH2.
        -- simpl. unfold engine_targets, write_targets in IH3. lia.
      * simpl. split_and!; [|done|lia].
        apply prefix_cons, prefix_nil.
    + rewrite V2_run_one_not_found by done. cbn [result world calls].
      destruct (IH (lib_log L "WARNING" (not_found_msg t g) w))
        as (IH1 & IH2 & IH3).
      rewrite !omap_app. by cbn [omap list_omap app].
Qed.
